(** * tele-oximeter: the ingestion script and the retrieval backend

    A shallow embedding of
    - [scripts/device_connect_and_parse.py]: frame parsing, the reading
      buffer, the periodic writer and the orchestrating [main];
    - [backend/src/app.py]: session creation and data retrieval.

    Conventions of the embedding.
    - Python code that mutates module-level variables and may raise is
      written in a small state-and-exception monad [Py].
    - What the outside world answers (HTTP responses, query results, scan
      results, the clock, the random UUID) is an explicit input, and so
      is whether a call to a collaborator raises: the HTTP request and
      the datastore queries, which the source guards with [try]/[except],
      and the radio calls ([discover], connecting and disconnecting the
      client, [start_notify], [stop_notify]), which it does not guard, so
      that their exceptions leave the function.
    - Calls made to collaborators are recorded in a trace of [Action]s,
      a radio call that raised under a name of its own.
    - [print] only writes diagnostics to the console; the console is not
      part of the modelled state. *)

From Stdlib Require Import ZArith NArith Lia List Bool.
From Stdlib Require Import Strings.String Strings.Ascii Strings.Byte.
From Stdlib Require Import Sorting.Sorted Sorting.Permutation.
Import ListNotations.

Local Open Scope Z_scope.

(** ** Exceptions and the monad of Python statements *)

(** The subclasses of [Exception] that the modelled code can meet. *)
Inductive Exn : Type :=
| IndexError
| KeyError
| RequestError          (* transport failure of an HTTP request *)
| StatusError (code : Z) (* [Exception("Failed to create session: ...")] *)
| APIError              (* the datastore client's [execute()] failed *)
| BleakError.           (* a call to the radio library failed *)

Inductive Res (A : Type) : Type :=
| Val (a : A)
| Raised (e : Exn).
Arguments Val {A} a.
Arguments Raised {A} e.

Section PyMonad.
Context {St : Type}.

(** A statement runs from a state and ends with a value or an exception,
    in the state reached by then. *)
Definition Py (A : Type) : Type := St -> Res A * St.

Definition ret {A} (a : A) : Py A := fun s => (Val a, s).

Definition bind {A B} (m : Py A) (k : A -> Py B) : Py B :=
  fun s => match m s with
           | (Val a, s') => k a s'
           | (Raised e, s') => (Raised e, s')
           end.

Definition raise {A} (e : Exn) : Py A := fun s => (Raised e, s).

(** [try: body / except Exception as e: handler e] *)
Definition try_except {A} (body : Py A) (handler : Exn -> Py A) : Py A :=
  fun s => match body s with
           | (Val a, s') => (Val a, s')
           | (Raised e, s') => handler e s'
           end.

Definition gets {A} (f : St -> A) : Py A := fun s => (Val (f s), s).

Definition modify (f : St -> St) : Py unit := fun s => (Val tt, f s).

(** The state a statement ends in. *)
Definition exec {A} (m : Py A) (s : St) : St := snd (m s).
End PyMonad.

Declare Scope py_scope.
Delimit Scope py_scope with py.
Notation "x <- m ;; k" := (bind m (fun x => k))
  (at level 61, m at next level, right associativity) : py_scope.
Notation "m ;; k" := (bind m (fun _ => k))
  (at level 61, right associativity) : py_scope.

(** [try: body / finally: cleanup], and what leaving a [with] block does:
    the cleanup runs however the body ended; an exception of the cleanup
    replaces the body's outcome. *)
Definition finally {St A} (body : @Py St A) (cleanup : @Py St unit)
    : @Py St A :=
  fun s => match body s with
           | (r, s1) => match cleanup s1 with
                        | (Val _, s2) => (r, s2)
                        | (Raised e, s2) => (Raised e, s2)
                        end
           end.

(** ** Data shared by the two programs *)

(** One row of [health_data]: the dict built by [notification_handler].
    [session_id] is [None] while [current_session_id] is still [None]. *)
Record Reading : Type := mkReading {
  session_id : option Z;
  timestamp : Z;
  spo2 : Z;
  pulse : Z }.

Definition Z_of_byte (b : byte) : Z := Z.of_N (Byte.to_N b).

(** [raw[i]] on a Python list, for an index [i >= 0]. *)
Definition getitem {St A} (raw : list A) (i : nat) : @Py St A :=
  match nth_error raw i with
  | Some x => ret x
  | None => raise IndexError
  end.

(** * scripts/device_connect_and_parse.py *)
Module Ingest.

(** [find_device] returns [char.uuid] or the integer [-1]. *)
Inductive CharRef : Type :=
| NoChar                  (* -1 *)
| CharUuid (uuid : string).

Record LatestData : Type := mkLatest {
  hr : option Z;
  latest_spo2 : option Z;
  latest_timestamp : option Z }.

(** Calls made to the collaborators, in the order they are made. *)
Inductive Action : Type :=
| PostSessionNew                       (* requests.post(API_URL/session/new) *)
| SelectSession (key : string)         (* sessions.select('id').eq(...) *)
| Discover                             (* BleakScanner.discover() *)
| Connect (address : string)           (* entering [async with BleakClient] *)
| Disconnect (address : string)        (* leaving it *)
| StartNotify (char : CharRef)
| StopNotify (char : CharRef)
| CreateTask                           (* asyncio.create_task(db_writer()) *)
| CancelTask                           (* writer_task.cancel() *)
| Insert (rows : list Reading) (ok : bool) (* health_data.insert(rows) *)
| DiscoverFailed                       (* the same calls, when they raise *)
| ConnectFailed (address : string)
| DisconnectFailed (address : string)
| StartNotifyFailed (char : CharRef)
| StopNotifyFailed (char : CharRef).

(** The module-level variables of the script and the trace of its calls. *)
Record World : Type := mkWorld {
  DEVICE_ADDRESS : string;
  CHAR_UUID : CharRef;
  latest_data : LatestData;
  data_buffer : list Reading;
  current_session_id : option Z;
  session_key : option string;
  trace : list Action }.

(** Lines 26-34. *)
Definition initial_world : World :=
  {| DEVICE_ADDRESS := EmptyString; CHAR_UUID := CharUuid EmptyString;
     latest_data := mkLatest None None None;
     data_buffer := []; current_session_id := None; session_key := None;
     trace := [] |}.

Definition set_DEVICE_ADDRESS (a : string) (w : World) : World :=
  mkWorld a (CHAR_UUID w) (latest_data w) (data_buffer w)
          (current_session_id w) (session_key w) (trace w).
Definition set_CHAR_UUID (c : CharRef) (w : World) : World :=
  mkWorld (DEVICE_ADDRESS w) c (latest_data w) (data_buffer w)
          (current_session_id w) (session_key w) (trace w).
Definition set_data_buffer (b : list Reading) (w : World) : World :=
  mkWorld (DEVICE_ADDRESS w) (CHAR_UUID w) (latest_data w) b
          (current_session_id w) (session_key w) (trace w).
Definition set_current_session_id (i : option Z) (w : World) : World :=
  mkWorld (DEVICE_ADDRESS w) (CHAR_UUID w) (latest_data w) (data_buffer w)
          i (session_key w) (trace w).
Definition set_session_key (k : option string) (w : World) : World :=
  mkWorld (DEVICE_ADDRESS w) (CHAR_UUID w) (latest_data w) (data_buffer w)
          (current_session_id w) k (trace w).
Definition set_trace (t : list Action) (w : World) : World :=
  mkWorld (DEVICE_ADDRESS w) (CHAR_UUID w) (latest_data w) (data_buffer w)
          (current_session_id w) (session_key w) t.

(** Record a call to a collaborator. *)
Definition emit (a : Action) : @Py World unit :=
  modify (fun w => set_trace (trace w ++ [a]) w).

(** [data_buffer.append(r)] *)
Definition buffer_append (r : Reading) (w : World) : World :=
  set_data_buffer (data_buffer w ++ [r]) w.

Local Open Scope py_scope.

(** [raw[15] == 255 and raw[16] == 127 and raw[17] == 255], evaluated left
    to right and stopping at the first false conjunct. *)
Definition no_signal (raw : list Z) : @Py World bool :=
  b15 <- getitem raw 15 ;;
  if b15 =? 255 then
    b16 <- getitem raw 16 ;;
    if b16 =? 127 then
      b17 <- getitem raw 17 ;;
      ret (b17 =? 255)
    else ret false
  else ret false.

(** Lines 77-98.  [now] is what [int(time.time())] evaluates to. *)
Definition notification_handler (now : Z) (data : list byte) : @Py World unit :=
  let raw := map Z_of_byte data in
  if (List.length raw <? 19)%nat then ret tt
  else
    try_except
      (b18 <- getitem raw 18 ;;
       cond <- (if b18 =? 255
                then (ns <- no_signal raw ;; ret (negb ns))
                else ret false) ;;
       if (cond : bool) then
         spo2 <- getitem raw 16 ;;
         hr <- getitem raw 17 ;;
         let ts := now in
         sid <- gets current_session_id ;;
         modify (buffer_append
                   {| session_id := sid; timestamp := ts;
                      spo2 := spo2; pulse := hr |})
       else ret tt)
      (fun _ => ret tt).

(** Byte [i] of a frame as the integer the handler sees (0 past the end). *)
Definition byte_at (data : list byte) (i : nat) : Z :=
  nth i (map Z_of_byte data) 0.

(** The condition under which a frame carries a reading, in the words of
    the specification: at least 19 bytes, byte 18 is the marker 255, and
    bytes 15-17 are not the no-signal pattern (255, 127, 255). *)
Definition frame_has_reading (data : list byte) : Prop :=
  (19 <= List.length data)%nat /\
  byte_at data 18 = 255 /\
  (byte_at data 15, byte_at data 16, byte_at data 17) <> (255, 127, 255).

(** The reading such a frame decodes to. *)
Definition reading_of (sid : option Z) (now : Z) (data : list byte) : Reading :=
  {| session_id := sid; timestamp := now;
     spo2 := byte_at data 16; pulse := byte_at data 17 |}.

(** The test of line 86 as a boolean on the frame. *)
Definition frame_ok (data : list byte) : bool :=
  (byte_at data 18 =? 255) &&
  negb ((byte_at data 15 =? 255) && (byte_at data 16 =? 127)
        && (byte_at data 17 =? 255)).

(** ** The periodic writer (lines 101-114) *)

(** [supabase.table('health_data').insert(rows).execute()]: the call is
    recorded with its outcome; it raises when the service refuses. *)
Definition insert_health_data (rows : list Reading) (ok : bool) : @Py World unit :=
  emit (Insert rows ok) ;;
  if ok then ret tt else raise APIError.

(** One turn of the [while True] loop, after [asyncio.sleep] has returned.
    [insert_ok] says whether this turn's insert succeeds. *)
Definition db_writer_cycle (insert_ok : bool) : @Py World unit :=
  buf <- gets data_buffer ;;
  match buf with
  | [] => ret tt
  | _ :: _ =>
    try_except
      (insert_health_data buf insert_ok ;;
       modify (set_data_buffer []))
      (fun _ => ret tt)
  end.

(** ** Steady state

    The script runs on one event loop.  Neither [notification_handler] nor
    the part of [db_writer] between two sleeps contains an [await], so each
    runs to its end before the other can start: the steady state is a
    sequence of whole handler calls and whole writer turns. *)
Inductive SteadyEvent : Type :=
| Notification (now : Z) (data : list byte)
| WriterWakes (insert_ok : bool).

Definition steady_step (e : SteadyEvent) : @Py World unit :=
  match e with
  | Notification now data => notification_handler now data
  | WriterWakes insert_ok => db_writer_cycle insert_ok
  end.

Fixpoint steady_state (evs : list SteadyEvent) : @Py World unit :=
  match evs with
  | [] => ret tt
  | e :: evs' => steady_step e ;; steady_state evs'
  end.

(** ** Setup (lines 37-74) *)

(** What [requests.post] does: raise, or answer with [response.ok], a
    status code and, when the body is JSON with that field, its
    ['session_key']. *)
Inductive PostResult : Type :=
| PostRaises
| PostResponse (ok : bool) (status_code : Z) (key_field : option string).

Definition request_session (r : PostResult) : @Py World (option string) :=
  try_except
    (emit PostSessionNew ;;
     match r with
     | PostRaises => raise RequestError
     | PostResponse true _ (Some k) => ret (Some k)
     | PostResponse true _ None => raise KeyError
     | PostResponse false status _ => raise (StatusError status)
     end)
    (fun _ => ret None).

Record Device : Type := mkDevice {
  name : option string;
  address : string }.

Record Characteristic : Type := mkChar {
  uuid : string;
  properties : list string }.

(** [service.characteristics] *)
Definition Service : Type := list Characteristic.

Definition is_target (d : Device) : bool :=
  match name d with
  | Some n => (n =? "BLT_M70C")%string
  | None => false
  end.

Definition can_notify (c : Characteristic) : bool :=
  existsb (String.eqb "notify") (properties c).

(** An awaited call to the radio library: it is recorded as [done] when
    it returns and as [failed] when it raises. *)
Definition radio_call (done failed : Action) (raises : bool)
    : @Py World unit :=
  if raises then (emit failed ;; raise BleakError) else emit done.

(** [async with BleakClient(addr) as client: body]: connect, run the body,
    and disconnect however the body ended. *)
Definition with_client {A} (addr : string)
    (connect_raises disconnect_raises : bool) (body : @Py World A)
    : @Py World A :=
  radio_call (Connect addr) (ConnectFailed addr) connect_raises ;;
  finally body
    (radio_call (Disconnect addr) (DisconnectFailed addr) disconnect_raises).

(** The three flags say whether the scan, the connect and the disconnect
    raise. *)
Definition find_device
    (discover_raises connect_raises disconnect_raises : bool)
    (devices : list Device)
    (services : string -> list Service) : @Py World CharRef :=
  radio_call Discover DiscoverFailed discover_raises ;;
  match find is_target devices with
  | Some d => modify (set_DEVICE_ADDRESS (address d))
  | None => ret tt
  end ;;
  addr <- gets DEVICE_ADDRESS ;;
  if (addr =? EmptyString)%string then ret NoChar
  else
    with_client addr connect_raises disconnect_raises
      (ret match find can_notify (List.concat (services addr)) with
           | Some c => CharUuid (uuid c)
           | None => NoChar
           end).

(** ** The orchestrator (lines 117-172) *)

(** What ends [await asyncio.Event().wait()]: the event is never set. *)
Inductive Signal : Type := KeyboardInterrupt | CancelledError.

(** Everything the outside decides during one run. *)
Record Env : Type := mkEnv {
  post_result : PostResult;
  sessions_query : Res (list Z);   (* the ids the sessions query returns *)
  devices : list Device;
  services : string -> list Service;
  steady : list SteadyEvent;
  signal : Signal;
  discover_raises : bool;          (* the scan of [find_device] *)
  probe_connect_raises : bool;     (* the client of [find_device] *)
  probe_disconnect_raises : bool;
  connect_raises : bool;           (* the client of [main] *)
  start_notify_raises : bool;
  stop_notify_raises : bool;
  disconnect_raises : bool }.

Definition main (env : Env) : @Py World unit :=
  sk <- request_session (post_result env) ;;
  modify (set_session_key sk) ;;
  match sk with
  | None => ret tt
  | Some key =>
    if (key =? EmptyString)%string then ret tt
    else
      resolved <-
        try_except
          (emit (SelectSession key) ;;
           session <- match sessions_query env with
                      | Val rows => ret rows
                      | Raised e => raise e
                      end ;;
           match session with
           | [] => ret false
           | id0 :: _ =>
             modify (set_current_session_id (Some id0)) ;; ret true
           end)
          (fun _ => ret false) ;;
      if (resolved : bool) then
        c <- find_device (discover_raises env) (probe_connect_raises env)
                         (probe_disconnect_raises env)
                         (devices env) (services env) ;;
        modify (set_CHAR_UUID c) ;;
        match c with
        | NoChar => ret tt
        | CharUuid _ =>
          addr <- gets DEVICE_ADDRESS ;;
          with_client addr (connect_raises env) (disconnect_raises env)
            (radio_call (StartNotify c) (StartNotifyFailed c)
                        (start_notify_raises env) ;;
             emit CreateTask ;;
             steady_state (steady env) ;;
             match signal env with
             | KeyboardInterrupt | CancelledError => ret tt
             end ;;
             radio_call (StopNotify c) (StopNotifyFailed c)
                        (stop_notify_raises env) ;;
             emit CancelTask)
        end
      else ret tt
  end.

(** ** Reference notions for the statements about runs *)

(** A frame carries a reading, as a boolean. *)
Definition has_reading (data : list byte) : bool :=
  (19 <=? List.length data)%nat && frame_ok data.

(** The readings a steady-state event contributes when the current session
    id is [sid]. *)
Definition decoded_of (sid : option Z) (e : SteadyEvent) : list Reading :=
  match e with
  | Notification now data =>
    if has_reading data then [reading_of sid now data] else []
  | WriterWakes _ => []
  end.

(** The readings decoded during a sequence of events, oldest first. *)
Definition decoded (sid : option Z) (evs : list SteadyEvent) : list Reading :=
  flat_map (decoded_of sid) evs.

(** A writer turn whose insert succeeds. *)
Definition is_ok_flush (e : SteadyEvent) : bool :=
  match e with
  | WriterWakes true => true
  | _ => false
  end.

(** The events that follow the last successful flush (all of them when
    there is none). *)
Fixpoint after_last_ok_flush (evs : list SteadyEvent) : list SteadyEvent :=
  match evs with
  | [] => []
  | e :: rest =>
    if existsb is_ok_flush rest then after_last_ok_flush rest
    else if is_ok_flush e then rest else e :: rest
  end.

(** The batches the datastore accepted: these are the batches that were
    taken out of the buffer. *)
Definition ok_batches (t : list Action) : list (list Reading) :=
  flat_map (fun a => match a with
                     | Insert rows true => [rows]
                     | _ => []
                     end) t.

(** What one writer turn takes out of the buffer of [w]: the readings that
    are in the buffer before the turn and no longer after it. *)
Definition drained_by (insert_ok : bool) (w : World) : list Reading :=
  let w' := exec (db_writer_cycle insert_ok) w in
  firstn (List.length (data_buffer w) - List.length (data_buffer w'))
         (data_buffer w).

(** The batch one writer turn hands to the datastore, if it hands one. *)
Definition submitted_by (insert_ok : bool) (w : World) : list (list Reading) :=
  let w' := exec (db_writer_cycle insert_ok) w in
  flat_map (fun a => match a with
                     | Insert rows _ => [rows]
                     | _ => []
                     end) (skipn (List.length (trace w)) (trace w')).

(** The statement that failed batches are discarded, on a trace: a reading
    of a batch whose insert failed is in no later submission. *)
Definition failed_batches_discarded (t : list Action) : Prop :=
  forall pre rows mid rows' ok post r,
    t = pre ++ Insert rows false :: mid ++ Insert rows' ok :: post ->
    In r rows -> ~ In r rows'.

(** The four setup failures, on what the outside answers. *)
Definition issuance_fails (env : Env) : bool :=
  match post_result env with
  | PostResponse true _ (Some k) => (k =? EmptyString)%string
  | _ => true
  end.

Definition resolve_fails (env : Env) : bool :=
  match sessions_query env with
  | Val (_ :: _) => false
  | _ => true
  end.

(** The address of the first advertised device with the target name. *)
Definition discovered (env : Env) : option string :=
  match find is_target (devices env) with
  | Some d => if (address d =? EmptyString)%string then None else Some (address d)
  | None => None
  end.

Definition device_not_found (env : Env) : bool :=
  match discovered env with
  | Some _ => false
  | None => true
  end.

Definition no_notifiable_channel (env : Env) : bool :=
  match discovered env with
  | Some a =>
    match find can_notify (List.concat (services env a)) with
    | Some _ => false
    | None => true
    end
  | None => false
  end.

Definition setup_fails (env : Env) : bool :=
  issuance_fails env || resolve_fails env
  || device_not_found env || no_notifiable_channel env.

(** The subscription was opened or the writer task was started. *)
Definition steady_stage_entered (t : list Action) : bool :=
  existsb (fun a => match a with
                    | StartNotify _ | CreateTask => true
                    | _ => false
                    end) t.

Definition is_insert (a : Action) : Prop :=
  match a with
  | Insert _ _ => True
  | _ => False
  end.

(** ** Concrete frames, readings and runs *)

(** A 19-byte frame with bytes 15..18 = 0, 10, 72, 255. *)
Definition frame_A : list byte := repeat x00 16 ++ [x0a; x48; xff].

(** A frame with bytes 15..18 = 255, 127, 255, 255: no signal. *)
Definition frame_B : list byte := repeat x00 15 ++ [xff; x7f; xff; xff].

Definition reading_1 : Reading := mkReading (Some 7) 1 97 60.
Definition reading_2 : Reading := mkReading (Some 7) 2 98 61.
Definition reading_3 : Reading := mkReading (Some 7) 3 99 62.

(** One frame arrives, the writer wakes and its insert fails, the writer
    wakes again and its insert succeeds. *)
Definition resubmission_run : list SteadyEvent :=
  [Notification 1 frame_A; WriterWakes false; WriterWakes true].

(** Notifications only, from (clock, frame) pairs. *)
Definition notifications (frames : list (Z * list byte)) : list SteadyEvent :=
  map (fun f => Notification (fst f) (snd f)) frames.

(** ** Concrete environments *)

Definition oximeter : Device := mkDevice (Some "BLT_M70C"%string) "C0:26:DA:01:02:03".

Definition notify_char : Characteristic :=
  mkChar "0000fff1-0000-1000-8000-00805f9b34fb" ["read"; "notify"]%string.

(** Every setup step succeeds; one frame arrives and is flushed before the
    run is cancelled. *)
Definition env_ok : Env :=
  {| post_result := PostResponse true 200 (Some "AB12CD"%string);
     sessions_query := Val [7];
     devices := [mkDevice None "11:22:33:44:55:66"; oximeter];
     services := fun _ => [[mkChar "00002a00" ["read"%string]]; [notify_char]];
     steady := [Notification 1 frame_A; WriterWakes true];
     signal := CancelledError;
     discover_raises := false; probe_connect_raises := false;
     probe_disconnect_raises := false; connect_raises := false;
     start_notify_raises := false; stop_notify_raises := false;
     disconnect_raises := false |}.

(** The same, but no advertised device has the target name. *)
Definition env_no_device : Env :=
  {| post_result := PostResponse true 200 (Some "AB12CD"%string);
     sessions_query := Val [7];
     devices := [mkDevice None "11:22:33:44:55:66"];
     services := fun _ => [[notify_char]];
     steady := [Notification 1 frame_A; WriterWakes true];
     signal := CancelledError;
     discover_raises := false; probe_connect_raises := false;
     probe_disconnect_raises := false; connect_raises := false;
     start_notify_raises := false; stop_notify_raises := false;
     disconnect_raises := false |}.

(** ** Further reference notions *)

(** The device links open after a trace, innermost first, starting from
    the links [st]; a link counts as closed once its disconnect has been
    called, whether that call returned or raised.  [None] when a disconnect
    is not that of the innermost open link. *)
Fixpoint link_stack (t : list Action) (st : list string)
    : option (list string) :=
  match t with
  | [] => Some st
  | Connect a :: t' => link_stack t' (a :: st)
  | Disconnect a :: t' | DisconnectFailed a :: t' =>
    match st with
    | b :: st' => if (a =? b)%string then link_stack t' st' else None
    | [] => None
    end
  | _ :: t' => link_stack t' st
  end.

(** Every batch handed to the datastore, accepted or not. *)
Definition all_batches (t : list Action) : list (list Reading) :=
  flat_map (fun a => match a with
                     | Insert rows _ => [rows]
                     | _ => []
                     end) t.

(** A call that uses the radio. *)
Definition uses_radio (a : Action) : bool :=
  match a with
  | Discover | Connect _ | Disconnect _ | StartNotify _ | StopNotify _ => true
  | DiscoverFailed | ConnectFailed _ | DisconnectFailed _
  | StartNotifyFailed _ | StopNotifyFailed _ => true
  | _ => false
  end.

(** The address [find_device] works with once the scan is over: that of
    the first target found, else what [DEVICE_ADDRESS] already held. *)
Definition address_after_scan (devices : list Device) (w : World) : string :=
  match find is_target devices with
  | Some d => address d
  | None => DEVICE_ADDRESS w
  end.

(** The world in which the steady state starts: session [k] resolved to
    [id0], device at [addr], subscribed to [c], writer task created. *)
Definition subscribed_world (k : string) (id0 : Z) (addr : string)
    (c : CharRef) : World :=
  {| DEVICE_ADDRESS := addr; CHAR_UUID := c;
     latest_data := mkLatest None None None;
     data_buffer := []; current_session_id := Some id0;
     session_key := Some k;
     trace := [PostSessionNew; SelectSession k; Discover;
               Connect addr; Disconnect addr;
               Connect addr; StartNotify c; CreateTask] |}.

(** A radio call that raised. *)
Definition is_radio_failure (a : Action) : bool :=
  match a with
  | DiscoverFailed | ConnectFailed _ | DisconnectFailed _
  | StartNotifyFailed _ | StopNotifyFailed _ => true
  | _ => false
  end.

(** The run gets as far as the steady state: no setup failure, and every
    radio call up to and including [start_notify] returns. *)
Definition reaches_steady_state (env : Env) : bool :=
  negb (setup_fails env) && negb (discover_raises env)
  && negb (probe_connect_raises env) && negb (probe_disconnect_raises env)
  && negb (connect_raises env) && negb (start_notify_raises env).

(** How the disconnect on leaving [main]'s [async with] block is recorded. *)
Definition final_disconnect (env : Env) (addr : string) : Action :=
  if disconnect_raises env then DisconnectFailed addr else Disconnect addr.

(** A 20-byte frame that agrees with [frame_A] on bytes 15..18 only. *)
Definition frame_A' : list byte := repeat x55 15 ++ [x00; x0a; x48; xff; x99].

(** A frame with bytes 15..18 = 0, 255, 200, 255. *)
Definition frame_C : list byte := repeat x00 15 ++ [x00; xff; xc8; xff].

(** Setup succeeds; a reading arrives after the only flush. *)
Definition env_unflushed : Env :=
  {| post_result := PostResponse true 200 (Some "AB12CD"%string);
     sessions_query := Val [7; 9];
     devices := [oximeter];
     services := fun _ => [[notify_char]];
     steady := [Notification 1 frame_A; WriterWakes true;
                Notification 6 frame_C];
     signal := KeyboardInterrupt;
     discover_raises := false; probe_connect_raises := false;
     probe_disconnect_raises := false; connect_raises := false;
     start_notify_raises := false; stop_notify_raises := false;
     disconnect_raises := false |}.

(** As [env_ok], but [stop_notify] raises (the link is already down). *)
Definition env_stop_notify_fails : Env :=
  {| post_result := post_result env_ok;
     sessions_query := sessions_query env_ok;
     devices := devices env_ok;
     services := services env_ok;
     steady := steady env_ok;
     signal := CancelledError;
     discover_raises := false; probe_connect_raises := false;
     probe_disconnect_raises := false; connect_raises := false;
     start_notify_raises := false; stop_notify_raises := true;
     disconnect_raises := false |}.

(** The session-issuance endpoint answers 503. *)
Definition env_no_session : Env :=
  {| post_result := PostResponse false 503 None;
     sessions_query := Val [7];
     devices := [oximeter];
     services := fun _ => [[notify_char]];
     steady := [];
     signal := CancelledError;
     discover_raises := false; probe_connect_raises := false;
     probe_disconnect_raises := false; connect_raises := false;
     start_notify_raises := false; stop_notify_raises := false;
     disconnect_raises := false |}.

(** Every reading of [rows] carries the session id [sid]. *)
Definition all_tagged (sid : option Z) (rows : list Reading) : Prop :=
  Forall (fun r => session_id r = sid) rows.

End Ingest.

(** * backend/src/app.py *)
Module Backend.

(** A row of the [sessions] table. *)
Record SessionRow : Type := mkSession {
  id : Z;
  session_key : string;
  start_time : string }.

(** The datastore, by the two tables the programs use. *)
Record Database : Type := mkDatabase {
  sessions : list SessionRow;
  health_data : list Reading }.

(** What a route answers. *)
Inductive Response : Type :=
| SessionCreated (key : string)   (* 200, {'session_key': key, 'message': ...} *)
| SessionNotFound                 (* 404, {'error': 'Session not found'} *)
| HealthData (rows : list Reading) (* 200, the rows *)
| InternalServerError.            (* abort(500) *)

(** ** [str(uuid.uuid4())[:6].upper()] *)

(** The digits that ['%x'] prints. *)
Definition hex_char (d : N) : ascii :=
  nth (N.to_nat d) (list_ascii_of_string "0123456789abcdef") "0"%char.

(** Digit [i] (from the left) of ['%032x' % u]. *)
Definition hex_digit_at (u : N) (i : nat) : ascii :=
  hex_char ((u / 16 ^ N.of_nat (31 - i)) mod 16)%N.

Definition hex32 (u : N) : string :=
  string_of_list_ascii (map (hex_digit_at u) (seq 0 32)).

(** [str] of the UUID whose 128-bit integer is [u]: the 32 hex digits in
    groups of 8, 4, 4, 4 and 12. *)
Definition uuid_str (u : N) : string :=
  let h := hex32 u in
  (substring 0 8 h ++ "-" ++ substring 8 4 h ++ "-" ++ substring 12 4 h
   ++ "-" ++ substring 16 4 h ++ "-" ++ substring 20 12 h)%string.

(** [uuid4] sets the version nibble to 4 and the two variant bits to 10. *)
Definition is_uuid4 (u : N) : bool :=
  ((u <? 2 ^ 128) && ((u / 2 ^ 76) mod 16 =? 4) && ((u / 2 ^ 62) mod 4 =? 2))%N.

Definition is_lower (c : ascii) : bool :=
  ((97 <=? N_of_ascii c) && (N_of_ascii c <=? 122))%N.

(** [str.upper] on one ASCII character. *)
Definition upper_char (c : ascii) : ascii :=
  if is_lower c then ascii_of_N (N_of_ascii c - 32) else c.

(** [str.upper] on ASCII text, which is all a UUID string holds. *)
Fixpoint upper (s : string) : string :=
  match s with
  | EmptyString => EmptyString
  | String c s' => String (upper_char c) (upper s')
  end.

(** The key of line 26, from the UUID that [uuid.uuid4()] drew. *)
Definition generate_session_key (u : N) : string :=
  upper (substring 0 6 (uuid_str u)).

(** ** The datastore's primitives

    The datastore is reached through a client library; its primitives are
    given here by what they do to the tables: [eq] keeps the rows with
    that value, [order(..., desc=True)] sorts, [limit] keeps a prefix. *)

(** [execute()] of a query: it raises when the service fails. *)
Definition execute {A} (fault : bool) (query : Database -> A) : @Py Database A :=
  fun db => if fault then (Raised APIError, db) else (Val (query db), db).

(** The id the datastore gives a new session row. *)
Definition next_id (db : Database) : Z :=
  1 + fold_right Z.max 0 (map id (sessions db)).

Definition insert_session (key start : string) (db : Database) : Database :=
  {| sessions := sessions db ++ [mkSession (next_id db) key start];
     health_data := health_data db |}.

(** [sessions.select('id').eq('session_key', key)] *)
Definition select_session_ids (key : string) (db : Database) : list Z :=
  map id (filter (fun s => (session_key s =? key)%string) (sessions db)).

Definition of_session (sid : Z) (r : Reading) : bool :=
  match session_id r with
  | Some i => i =? sid
  | None => false
  end.

Fixpoint insert_desc (r : Reading) (l : list Reading) : list Reading :=
  match l with
  | [] => [r]
  | x :: xs =>
    if timestamp x <=? timestamp r then r :: l else x :: insert_desc r xs
  end.

(** [order('timestamp', desc=True)]; rows with equal timestamps keep their
    table order. *)
Definition order_timestamp_desc (l : list Reading) : list Reading :=
  fold_right insert_desc [] l.

(** [health_data.select('*').eq('session_id', sid)
      .order('timestamp', desc=True).limit(50)] *)
Definition select_health_data (sid : Z) (db : Database) : list Reading :=
  firstn 50 (order_timestamp_desc (filter (of_session sid) (health_data db))).

Local Open Scope py_scope.

(** ** The routes *)

(** Lines 22-40.  [u] is the UUID drawn, [now] is
    [datetime.utcnow().isoformat()], [fault] says whether the insert
    raises. *)
Definition create_session (fault : bool) (u : N) (now : string)
    : @Py Database Response :=
  try_except
    (let session_key := upper (substring 0 6 (uuid_str u)) in
     (if fault then raise APIError
      else modify (insert_session session_key now)) ;;
     ret (SessionCreated session_key))
    (fun _ => ret InternalServerError).

(** Lines 42-70.  The two faults say whether each query raises. *)
Definition get_data (fault_sessions fault_health : bool) (key : string)
    : @Py Database Response :=
  try_except
    (session <- execute fault_sessions (select_session_ids key) ;;
     match session with
     | [] => ret SessionNotFound
     | id0 :: _ =>
       result <- execute fault_health (select_health_data id0) ;;
       ret (HealthData result)
     end)
    (fun _ => ret InternalServerError).

(** ** Reference notions and concrete data *)

(** Descending by timestamp: [a] may come before [b]. *)
Definition newer_or_equal (a b : Reading) : Prop := timestamp b <= timestamp a.

(** Some stored session has this key. *)
Definition key_is_stored (key : string) (db : Database) : Prop :=
  exists s, In s (sessions db) /\ session_key s = key.

(** The id the key resolves to: [session[0]['id']]. *)
Definition resolved_id (key : string) (db : Database) : option Z :=
  hd_error (select_session_ids key db).

Definition no_lowercase (s : string) : Prop :=
  forall c, In c (list_ascii_of_string s) -> is_lower c = false.

Definition empty_db : Database := mkDatabase [] [].

(** Two version-4 UUIDs that agree on their first six hex digits:
    3f2a9c1e-7b4d-4e8a-9c3b-5d6f7a8b9c0d and
    3f2a9c55-1111-4222-8333-44445555666f. *)
Definition uuid_a : N := 0x3f2a9c1e7b4d4e8a9c3b5d6f7a8b9c0d%N.
Definition uuid_b : N := 0x3f2a9c5511114222833344445555666f%N.

(** Two sessions and four rows, one of them without a session. *)
Definition db_demo : Database :=
  {| sessions := [mkSession 7 "AB12CD" "2025-01-01T10:00:00";
                  mkSession 8 "3F2A9C" "2025-01-01T11:00:00"];
     health_data := [mkReading (Some 7) 100 97 60;
                     mkReading (Some 8) 105 95 70;
                     mkReading (Some 7) 110 98 61;
                     mkReading None 120 99 62] |}.

End Backend.

(** * Properties of the ingestion script *)
Module IngestFacts.
Import Ingest.

Lemma getitem_in_range (raw : list Z) (i : nat) (w : World) :
  (i < List.length raw)%nat -> getitem raw i w = (Val (nth i raw 0), w).
Proof.
  intros Hi. unfold getitem.
  rewrite (nth_error_nth' raw 0 Hi). reflexivity.
Qed.

Lemma frame_ok_iff (data : list byte) :
  (19 <= List.length data)%nat ->
  frame_ok data = true <->
  (byte_at data 18 = 255 /\
   (byte_at data 15, byte_at data 16, byte_at data 17) <> (255, 127, 255)).
Proof.
  intros _. unfold frame_ok.
  rewrite andb_true_iff, negb_true_iff, Z.eqb_eq.
  split; intros [H18 H]; split; trivial.
  - intros E. injection E as E15 E16 E17.
    rewrite E15, E16, E17 in H. discriminate.
  - destruct (Z.eqb_spec (byte_at data 15) 255) as [E15|]; trivial.
    destruct (Z.eqb_spec (byte_at data 16) 127) as [E16|]; trivial.
    destruct (Z.eqb_spec (byte_at data 17) 255) as [E17|]; trivial.
    exfalso. apply H. congruence.
Qed.

(** What the handler does with a frame of 19 bytes or more. *)
Lemma notification_handler_long (now : Z) (data : list byte) (w : World) :
  (19 <= List.length data)%nat ->
  notification_handler now data w =
  (Val tt, if frame_ok data
           then buffer_append (reading_of (current_session_id w) now data) w
           else w).
Proof.
  intros Hlen. unfold notification_handler, frame_ok, reading_of, byte_at.
  assert (Hraw : List.length (map Z_of_byte data) = List.length data)
    by apply length_map.
  destruct (Nat.ltb_spec (List.length (map Z_of_byte data)) 19) as [Hlt|_];
    [lia|].
  set (raw := map Z_of_byte data) in *.
  unfold try_except, bind, no_signal, bind.
  rewrite (getitem_in_range raw 18) by lia.
  destruct (nth 18 raw 0 =? 255); simpl; [|reflexivity].
  rewrite (getitem_in_range raw 15) by lia.
  destruct (nth 15 raw 0 =? 255); simpl.
  - rewrite (getitem_in_range raw 16) by lia.
    destruct (nth 16 raw 0 =? 127); simpl.
    + rewrite (getitem_in_range raw 17) by lia.
      unfold ret. destruct (nth 17 raw 0 =? 255); simpl; [reflexivity|].
      rewrite (getitem_in_range raw 16), (getitem_in_range raw 17) by lia.
      reflexivity.
    + unfold ret. simpl.
      rewrite (getitem_in_range raw 16), (getitem_in_range raw 17) by lia.
      reflexivity.
  - unfold ret. simpl.
    rewrite (getitem_in_range raw 16), (getitem_in_range raw 17) by lia.
    reflexivity.
Qed.

Lemma notification_handler_short (now : Z) (data : list byte) (w : World) :
  (List.length data < 19)%nat ->
  notification_handler now data w = (Val tt, w).
Proof.
  intros Hlen. unfold notification_handler.
  rewrite length_map.
  destruct (Nat.ltb_spec (List.length data) 19); [reflexivity|lia].
Qed.

Lemma buffer_append_changes (r : Reading) (w : World) : buffer_append r w <> w.
Proof.
  intros E. apply (f_equal (fun x => List.length (data_buffer x))) in E.
  simpl in E. rewrite length_app in E. simpl in E. lia.
Qed.

Lemma has_reading_iff (data : list byte) :
  has_reading data = true <-> frame_has_reading data.
Proof.
  unfold has_reading, frame_has_reading.
  rewrite andb_true_iff, Nat.leb_le. split.
  - intros [Hlen Hok]. split; trivial. now apply frame_ok_iff.
  - intros [Hlen H]. split; trivial. now apply frame_ok_iff.
Qed.

(** The handler as one equation: it returns, and the world it leaves is
    the old one or the old one with the decoded reading appended. *)
Lemma notification_handler_eq (now : Z) (data : list byte) (w : World) :
  notification_handler now data w =
  (Val tt, if has_reading data
           then buffer_append (reading_of (current_session_id w) now data) w
           else w).
Proof.
  unfold has_reading.
  destruct (Nat.leb_spec 19 (List.length data)) as [Hlen|Hlen]; simpl.
  - now apply notification_handler_long.
  - now apply notification_handler_short.
Qed.

(** C1.  The handler appends a reading exactly when the frame has at least
    19 bytes, byte 18 is 255 and bytes 15-17 are not (255, 127, 255).  The
    reading then has byte 16 as [spo2] and byte 17 as [pulse]; in every
    other case the handler returns with the world, buffer included, as it
    was. *)
Theorem notification_handler_decodes (now : Z) (data : list byte) (w : World) :
  ((exists r, exec (notification_handler now data) w = buffer_append r w)
   <-> frame_has_reading data) /\
  (frame_has_reading data ->
   notification_handler now data w =
   (Val tt, buffer_append {| session_id := current_session_id w;
                             timestamp := now;
                             spo2 := byte_at data 16;
                             pulse := byte_at data 17 |} w)) /\
  (~ frame_has_reading data ->
   notification_handler now data w = (Val tt, w)).
Proof.
  unfold exec. rewrite notification_handler_eq.
  destruct (has_reading data) eqn:E; simpl.
  - apply has_reading_iff in E.
    split; [split|split]; trivial.
    + now exists (reading_of (current_session_id w) now data).
    + intros H. contradiction.
  - assert (N : ~ frame_has_reading data).
    { intros H. apply has_reading_iff in H. congruence. }
    split; [split|split]; trivial.
    + intros [r Hr]. symmetry in Hr. now apply buffer_append_changes in Hr.
    + intros H. contradiction.
    + intros H. contradiction.
Qed.

(** C5.  For every frame the handler returns normally, and the world it
    leaves is either unchanged or differs by one [data_buffer.append]. *)
Theorem notification_handler_never_raises (now : Z) (data : list byte)
    (w : World) :
  exists w', notification_handler now data w = (Val tt, w') /\
             (w' = w \/ exists r, w' = buffer_append r w).
Proof.
  rewrite notification_handler_eq.
  destruct (has_reading data).
  - eexists. split; [reflexivity|]. right. now eexists.
  - exists w. split; [reflexivity|]. now left.
Qed.

(** ** The writer and the steady state *)

Lemma db_writer_cycle_eq (ok : bool) (w : World) :
  db_writer_cycle ok w =
  (Val tt,
   match data_buffer w with
   | [] => w
   | _ :: _ =>
     let w1 := set_trace (trace w ++ [Insert (data_buffer w) ok]) w in
     if ok then set_data_buffer [] w1 else w1
   end).
Proof.
  unfold db_writer_cycle, bind, gets.
  destruct (data_buffer w) as [|r rs] eqn:E; [reflexivity|].
  unfold try_except, insert_health_data, bind, emit, modify.
  destruct ok; reflexivity.
Qed.

Lemma steady_step_eq (e : SteadyEvent) (w : World) :
  steady_step e w = (Val tt, exec (steady_step e) w).
Proof.
  unfold exec. destruct e as [now data|ok]; simpl.
  - now rewrite notification_handler_eq.
  - now rewrite db_writer_cycle_eq.
Qed.

Lemma exec_steady_cons (e : SteadyEvent) (evs : list SteadyEvent) (w : World) :
  exec (steady_state (e :: evs)) w
  = exec (steady_state evs) (exec (steady_step e) w).
Proof.
  unfold exec at 1. simpl. unfold bind. now rewrite steady_step_eq.
Qed.

(** The steady state never ends with an exception. *)
Lemma steady_state_eq (evs : list SteadyEvent) (w : World) :
  steady_state evs w = (Val tt, exec (steady_state evs) w).
Proof.
  revert w. induction evs as [|e evs IH]; intros w; [reflexivity|].
  rewrite exec_steady_cons. simpl. unfold bind.
  rewrite steady_step_eq. apply IH.
Qed.

Lemma steady_step_session (e : SteadyEvent) (w : World) :
  current_session_id (exec (steady_step e) w) = current_session_id w.
Proof.
  unfold exec. destruct e as [now data|ok]; simpl.
  - rewrite notification_handler_eq. now destruct (has_reading data).
  - rewrite db_writer_cycle_eq.
    destruct (data_buffer w); [reflexivity|]. now destruct ok.
Qed.

Lemma steady_step_buffer (e : SteadyEvent) (w : World) :
  data_buffer (exec (steady_step e) w)
  = if is_ok_flush e then []
    else data_buffer w ++ decoded_of (current_session_id w) e.
Proof.
  unfold exec. destruct e as [now data|ok]; simpl.
  - rewrite notification_handler_eq.
    destruct (has_reading data); simpl; [reflexivity|].
    now rewrite app_nil_r.
  - rewrite db_writer_cycle_eq.
    destruct (data_buffer w) eqn:E; destruct ok; simpl;
      rewrite ?E, ?app_nil_r; reflexivity.
Qed.

Lemma ok_batches_app (t1 t2 : list Action) :
  ok_batches (t1 ++ t2) = ok_batches t1 ++ ok_batches t2.
Proof. apply flat_map_app. Qed.

(** One step keeps every reading: what the datastore accepted followed by
    the buffer grows by what the step decoded. *)
Lemma steady_step_conserves (e : SteadyEvent) (w : World) :
  List.concat (ok_batches (trace (exec (steady_step e) w)))
    ++ data_buffer (exec (steady_step e) w)
  = List.concat (ok_batches (trace w))
    ++ data_buffer w ++ decoded_of (current_session_id w) e.
Proof.
  unfold exec. destruct e as [now data|ok]; simpl.
  - rewrite notification_handler_eq.
    destruct (has_reading data); simpl; [reflexivity|].
    now rewrite app_nil_r.
  - rewrite db_writer_cycle_eq.
    destruct (data_buffer w) as [|r rs] eqn:E; simpl.
    + now rewrite E.
    + destruct ok; simpl; rewrite ?E, ?ok_batches_app, ?concat_app; simpl;
        rewrite ?app_nil_r; reflexivity.
Qed.

Lemma after_last_ok_flush_none (evs : list SteadyEvent) :
  existsb is_ok_flush evs = false -> after_last_ok_flush evs = evs.
Proof.
  destruct evs as [|e rest]; simpl; [reflexivity|].
  intros H. apply orb_false_iff in H as [He Hr]. now rewrite Hr, He.
Qed.

Lemma steady_state_session (evs : list SteadyEvent) (w : World) :
  current_session_id (exec (steady_state evs) w) = current_session_id w.
Proof.
  revert w. induction evs as [|e evs IH]; intros w; [reflexivity|].
  now rewrite exec_steady_cons, IH, steady_step_session.
Qed.

Lemma steady_state_buffer (evs : list SteadyEvent) (w : World) :
  data_buffer (exec (steady_state evs) w)
  = (if existsb is_ok_flush evs then [] else data_buffer w)
    ++ decoded (current_session_id w) (after_last_ok_flush evs).
Proof.
  revert w. induction evs as [|e evs IH]; intros w.
  - simpl. now rewrite app_nil_r.
  - rewrite exec_steady_cons, IH, steady_step_session, steady_step_buffer.
    simpl. destruct (existsb is_ok_flush evs) eqn:Ex.
    + now rewrite orb_true_r.
    + rewrite orb_false_r, (after_last_ok_flush_none evs Ex).
      destruct (is_ok_flush e); simpl; [reflexivity|].
      now rewrite <- app_assoc.
Qed.

Lemma steady_state_conserves (evs : list SteadyEvent) (w : World) :
  List.concat (ok_batches (trace (exec (steady_state evs) w)))
    ++ data_buffer (exec (steady_state evs) w)
  = List.concat (ok_batches (trace w))
    ++ data_buffer w ++ decoded (current_session_id w) evs.
Proof.
  revert w. induction evs as [|e evs IH]; intros w.
  - simpl. now rewrite app_nil_r.
  - rewrite exec_steady_cons, IH, steady_step_session.
    rewrite app_assoc, steady_step_conserves.
    simpl. now rewrite <- !app_assoc.
Qed.

(** C3.  In every state the steady state can reach, from every starting
    world: the buffer holds exactly the readings decoded since the last
    successful flush (after what it held at the start, when no flush has
    succeeded yet); and the batches taken out of the buffer, followed by
    the buffer, are exactly the readings ever held or decoded, in order and
    each once: none is lost and none is in two batches. *)
Theorem buffer_holds_readings_since_last_flush
    (evs : list SteadyEvent) (w : World) :
  data_buffer (exec (steady_state evs) w)
  = (if existsb is_ok_flush evs then [] else data_buffer w)
    ++ decoded (current_session_id w) (after_last_ok_flush evs)
  /\
  List.concat (ok_batches (trace (exec (steady_state evs) w)))
    ++ data_buffer (exec (steady_state evs) w)
  = List.concat (ok_batches (trace w))
    ++ data_buffer w ++ decoded (current_session_id w) evs.
Proof.
  split; [apply steady_state_buffer|apply steady_state_conserves].
Qed.

(** ** What a writer turn submits and what it takes out *)

Lemma skipn_length_app {A} (l l' : list A) :
  skipn (List.length l) (l ++ l') = l'.
Proof. induction l as [|x l IH]; simpl; trivial. Qed.

Lemma submitted_by_eq (ok : bool) (w : World) :
  submitted_by ok w = match data_buffer w with
                      | [] => []
                      | _ :: _ => [data_buffer w]
                      end.
Proof.
  unfold submitted_by, exec. rewrite db_writer_cycle_eq.
  destruct (data_buffer w) as [|r rs] eqn:E; simpl.
  - now rewrite skipn_all.
  - destruct ok; simpl; rewrite skipn_length_app; reflexivity.
Qed.

Lemma drained_by_eq (ok : bool) (w : World) :
  drained_by ok w = if ok then data_buffer w else [].
Proof.
  unfold drained_by, exec. rewrite db_writer_cycle_eq.
  destruct (data_buffer w) as [|r rs] eqn:E; simpl.
  - now destruct ok.
  - destruct ok; simpl.
    + now rewrite firstn_all.
    + rewrite E. simpl. now rewrite Nat.sub_diag.
Qed.

Lemma db_writer_cycle_buffer (ok : bool) (w : World) :
  data_buffer (exec (db_writer_cycle ok) w) = if ok then [] else data_buffer w.
Proof.
  unfold exec. rewrite db_writer_cycle_eq.
  destruct (data_buffer w) eqn:E; destruct ok; simpl; now rewrite ?E.
Qed.

Lemma db_writer_cycle_session (ok : bool) (w : World) :
  current_session_id (exec (db_writer_cycle ok) w) = current_session_id w.
Proof. apply (steady_step_session (WriterWakes ok)). Qed.

Lemma notifications_no_flush (frames : list (Z * list byte)) :
  existsb is_ok_flush (notifications frames) = false.
Proof. induction frames as [|f fs IH]; simpl; trivial. Qed.

Lemma notifications_buffer (frames : list (Z * list byte)) (w : World) :
  data_buffer (exec (steady_state (notifications frames)) w)
  = data_buffer w ++ decoded (current_session_id w) (notifications frames).
Proof.
  rewrite steady_state_buffer, notifications_no_flush.
  now rewrite after_last_ok_flush_none by apply notifications_no_flush.
Qed.

(** C2, as the code has it.  A writer turn whose insert fails takes nothing
    out of the buffer: the batch it submitted is still there, and the next
    writer turn submits it again, followed by the readings appended in
    between. *)
Theorem failed_batch_stays_in_buffer
    (w : World) (frames : list (Z * list byte)) (ok : bool) :
  data_buffer w <> [] ->
  submitted_by false w = [data_buffer w] /\
  drained_by false w = [] /\
  data_buffer (exec (db_writer_cycle false) w) = data_buffer w /\
  submitted_by ok
    (exec (steady_state (notifications frames))
          (exec (db_writer_cycle false) w))
  = [data_buffer w
     ++ decoded (current_session_id w) (notifications frames)].
Proof.
  intros Hne.
  rewrite !submitted_by_eq, drained_by_eq, notifications_buffer.
  rewrite db_writer_cycle_buffer, db_writer_cycle_session.
  destruct (data_buffer w) as [|r rs] eqn:E; [congruence|].
  simpl. repeat split; reflexivity.
Qed.

Lemma failed_batch_stays_in_buffer_example :
  data_buffer (buffer_append reading_1 initial_world) <> [] /\
  submitted_by true
    (exec (steady_state (notifications [(2, frame_A)]))
          (exec (db_writer_cycle false)
                (buffer_append reading_1 initial_world)))
  = [[reading_1; mkReading None 2 10 72]].
Proof.
  split; [discriminate|].
  exact (proj2 (proj2 (proj2
    (failed_batch_stays_in_buffer (buffer_append reading_1 initial_world)
       [(2, frame_A)] true ltac:(discriminate))))).
Defined.

(** C2, as stated, fails: after a failed insert the reading is still in the
    buffer and is part of the next submission. *)
Lemma failed_batch_is_resubmitted :
  trace (exec (steady_state resubmission_run) initial_world)
  = [Insert [mkReading None 1 10 72] false;
     Insert [mkReading None 1 10 72] true]
  /\ ~ failed_batches_discarded
         (trace (exec (steady_state resubmission_run) initial_world)).
Proof.
  assert (E : trace (exec (steady_state resubmission_run) initial_world)
              = [Insert [mkReading None 1 10 72] false;
                 Insert [mkReading None 1 10 72] true])
    by reflexivity.
  split; [exact E|].
  rewrite E. intros H.
  apply (H [] [mkReading None 1 10 72] [] [mkReading None 1 10 72] true []
           (mkReading None 1 10 72) eq_refl); now left.
Qed.

Lemma buffer_append_buffer (r : Reading) (w : World) :
  data_buffer (buffer_append r w) = data_buffer w ++ [r].
Proof. reflexivity. Qed.

(** Three appends and a draining turn on any buffer: the turn takes out
    what was there followed by the three readings. *)
Lemma append_three_then_drain_any_buffer
    (w : World) (r1 r2 r3 : Reading) (ok2 : bool) :
  let w3 := buffer_append r3 (buffer_append r2 (buffer_append r1 w)) in
  drained_by true w3 = data_buffer w ++ [r1; r2; r3] /\
  submitted_by true w3 = [data_buffer w ++ [r1; r2; r3]] /\
  drained_by ok2 (exec (db_writer_cycle true) w3) = [] /\
  submitted_by ok2 (exec (db_writer_cycle true) w3) = [].
Proof.
  cbv zeta.
  rewrite !drained_by_eq, !submitted_by_eq, db_writer_cycle_buffer.
  rewrite !buffer_append_buffer, <- !app_assoc. simpl.
  split; [reflexivity|]. split.
  - now destruct (data_buffer w).
  - split; [now destruct ok2|reflexivity].
Qed.

(** C4.  On a buffer that holds nothing, appending [r1], [r2], [r3] and
    then a writer turn that drains (its insert returns) hands over and
    takes out exactly [[r1; r2; r3]], in that order; a writer turn right
    after takes out and submits nothing. *)
Theorem append_three_then_drain
    (w : World) (r1 r2 r3 : Reading) (ok2 : bool) :
  data_buffer w = [] ->
  drained_by true
    (buffer_append r3 (buffer_append r2 (buffer_append r1 w)))
  = [r1; r2; r3] /\
  submitted_by true
    (buffer_append r3 (buffer_append r2 (buffer_append r1 w)))
  = [[r1; r2; r3]] /\
  drained_by ok2
    (exec (db_writer_cycle true)
          (buffer_append r3 (buffer_append r2 (buffer_append r1 w))))
  = [] /\
  submitted_by ok2
    (exec (db_writer_cycle true)
          (buffer_append r3 (buffer_append r2 (buffer_append r1 w))))
  = [].
Proof.
  intros Hw.
  pose proof (append_three_then_drain_any_buffer w r1 r2 r3 ok2) as H.
  cbv zeta in H. rewrite Hw in H. exact H.
Qed.

Lemma append_three_then_drain_example :
  data_buffer initial_world = [] /\
  drained_by true
    (buffer_append reading_3
       (buffer_append reading_2 (buffer_append reading_1 initial_world)))
  = [reading_1; reading_2; reading_3].
Proof.
  split; [reflexivity|].
  exact (proj1 (append_three_then_drain initial_world
                  reading_1 reading_2 reading_3 true eq_refl)).
Defined.

(** ** The end-to-end scenarios of the specification *)

(** Scenario A: bytes 15..18 = 0, 10, 72, 255 decode to spo2 10, pulse 72. *)
Example scenario_A :
  data_buffer (exec (notification_handler 1700000000 frame_A) initial_world)
  = [mkReading None 1700000000 10 72].
Proof. reflexivity. Qed.

(** Scenario B: bytes 15..18 = 255, 127, 255, 255 give no reading. *)
Example scenario_B :
  exec (notification_handler 1700000000 frame_B) initial_world = initial_world.
Proof. reflexivity. Qed.

(** Scenario D: three readings, then the writer wakes: one submission with
    all three, and the buffer is empty. *)
Example scenario_D :
  let w := exec (steady_state [Notification 1 frame_A; Notification 2 frame_A;
                               Notification 3 frame_A; WriterWakes true])
                initial_world in
  trace w = [Insert [mkReading None 1 10 72; mkReading None 2 10 72;
                     mkReading None 3 10 72] true]
  /\ data_buffer w = [].
Proof. split; reflexivity. Qed.

(** ** The orchestrator *)

(** In the steady state the only calls to collaborators are inserts. *)
Lemma steady_state_trace (evs : list SteadyEvent) (w : World) :
  exists ins, trace (exec (steady_state evs) w) = trace w ++ ins
              /\ Forall is_insert ins.
Proof.
  revert w. induction evs as [|e evs IH]; intros w.
  - exists []. simpl. now rewrite app_nil_r.
  - rewrite exec_steady_cons.
    destruct (IH (exec (steady_step e) w)) as [ins [Ht Hi]].
    assert (Hs : exists i1, trace (exec (steady_step e) w) = trace w ++ i1
                            /\ Forall is_insert i1).
    { unfold exec. destruct e as [now data|ok]; simpl.
      - rewrite notification_handler_eq. exists [].
        rewrite app_nil_r. split; [|constructor].
        now destruct (has_reading data).
      - rewrite db_writer_cycle_eq.
        destruct (data_buffer w) eqn:E; simpl.
        + exists []. rewrite app_nil_r. split; [reflexivity|constructor].
        + exists [Insert (data_buffer w) ok]. rewrite E.
          split; [now destruct ok|]. repeat constructor. }
    destruct Hs as [i1 [H1 Hi1]].
    exists (i1 ++ ins). rewrite Ht, H1, app_assoc. split; trivial.
    now apply Forall_app.
Qed.

Ltac run_setup env :=
  destruct env as [pr sq devs svcs st sg dr pcr pdr cr snr spr dcr];
  unfold reaches_steady_state, setup_fails, issuance_fails, resolve_fails,
    device_not_found, no_notifiable_channel, discovered, final_disconnect,
    exec, main, bind, request_session, try_except; simpl.

(** Run [find_device] inside [main], one case per outcome. *)
Ltac run_find_device dr pcr pdr devs svcs :=
  unfold find_device, with_client, radio_call, finally, bind; simpl;
  destruct dr; simpl;
  [|destruct (find is_target devs) as [d|]; simpl;
    [destruct (String.eqb_spec (address d) EmptyString); simpl;
     [|destruct pcr; simpl;
       [|destruct pdr; simpl;
         [|destruct (find can_notify (List.concat (svcs (address d))))
             as [ch|] eqn:F; simpl]]]|]].

Lemma setup_fails_aborts (env : Env) :
  setup_fails env = true ->
  steady_stage_entered (trace (exec (main env) initial_world)) = false.
Proof.
  run_setup env.
  destruct pr as [|[|] status [k|]]; simpl; trivial.
  destruct (String.eqb_spec k EmptyString); simpl; trivial.
  destruct sq as [[|id0 ids]|e]; simpl; trivial.
  run_find_device dr pcr pdr devs svcs; trivial.
  discriminate.
Qed.

(** A run that reaches the steady state, as one equation. *)
Lemma main_steady (env : Env) :
  reaches_steady_state env = true ->
  exists status k id0 ids d ch,
    post_result env = PostResponse true status (Some k) /\
    sessions_query env = Val (id0 :: ids) /\
    find is_target (devices env) = Some d /\
    find can_notify (List.concat (services env (address d))) = Some ch /\
    main env initial_world
    = (if stop_notify_raises env || disconnect_raises env
       then Raised BleakError else Val tt,
       set_trace
         (trace (exec (steady_state (steady env))
                      (subscribed_world k id0 (address d)
                                        (CharUuid (uuid ch))))
          ++ (if stop_notify_raises env
              then [StopNotifyFailed (CharUuid (uuid ch))]
              else [StopNotify (CharUuid (uuid ch)); CancelTask])
          ++ [final_disconnect env (address d)])
         (exec (steady_state (steady env))
               (subscribed_world k id0 (address d) (CharUuid (uuid ch))))).
Proof.
  intros H. unfold reaches_steady_state in H.
  repeat (apply andb_true_iff in H; destruct H as [H ?]).
  repeat match goal with
         | X : negb _ = true |- _ => apply negb_true_iff in X
         end.
  revert H. run_setup env. simpl in *. subst.
  destruct pr as [|[|] status [k|]]; simpl; try discriminate.
  destruct (String.eqb_spec k EmptyString); simpl; try discriminate.
  destruct sq as [[|id0 ids]|e]; simpl; try discriminate.
  unfold find_device, with_client, radio_call, finally, bind; simpl.
  destruct (find is_target devs) as [d|]; simpl; try discriminate.
  destruct (String.eqb_spec (address d) EmptyString); simpl;
    try discriminate.
  destruct (find can_notify (List.concat (svcs (address d))))
    as [ch|] eqn:F; simpl; try discriminate.
  intros _. exists status, k, id0, ids, d, ch.
  repeat split; trivial.
  rewrite steady_state_eq.
  match goal with
  | |- context [exec (steady_state st) ?w0] =>
    change w0 with (subscribed_world k id0 (address d) (CharUuid (uuid ch)))
  end.
  set (ws := exec (steady_state st)
                  (subscribed_world k id0 (address d) (CharUuid (uuid ch)))).
  destruct sg, spr, dcr; unfold emit, modify, ret, raise, set_trace; simpl;
    rewrite <- ?app_assoc; reflexivity.
Qed.

(** C6.  When session issuance fails, the session key does not resolve, no
    device is found or the device has no notifiable channel, the run ends
    without ever opening the subscription ([start_notify]) or starting the
    writer task ([create_task]). *)
Theorem setup_failure_aborts_before_steady_state (env : Env) :
  issuance_fails env = true \/ resolve_fails env = true \/
  device_not_found env = true \/ no_notifiable_channel env = true ->
  steady_stage_entered (trace (exec (main env) initial_world)) = false.
Proof.
  intros H. apply setup_fails_aborts. unfold setup_fails.
  destruct H as [H|[H|[H|H]]]; rewrite H;
    rewrite ?orb_true_r; reflexivity.
Qed.

Lemma setup_failure_aborts_example :
  device_not_found env_no_device = true /\
  trace (exec (main env_no_device) initial_world)
  = [PostSessionNew; SelectSession "AB12CD"; Discover] /\
  steady_stage_entered (trace (exec (main env_no_device) initial_world))
  = false.
Proof.
  split; [reflexivity|]. split; [reflexivity|].
  exact (setup_failure_aborts_before_steady_state env_no_device
           (or_intror (or_intror (or_introl eq_refl)))).
Defined.

(** C9, as the code has it.  In a run that reaches the steady state, once
    the wait is ended by the cancellation, [main] calls [stop_notify],
    then [writer_task.cancel], then the disconnect of the device link, in
    this order and as its last calls, provided [stop_notify] returns; it
    then returns unless the disconnect raises.  When [stop_notify] raises,
    [writer_task.cancel] is skipped: the disconnect on leaving the
    [async with] block is the only call that follows, and [main] ends with
    the exception. *)
Theorem teardown_in_order (env : Env) :
  reaches_steady_state env = true ->
  exists pre addr c ins,
    steady_stage_entered pre = false /\
    Forall is_insert ins /\
    trace (exec (main env) initial_world)
    = pre ++ [Connect addr; StartNotify c; CreateTask] ++ ins
          ++ (if stop_notify_raises env
              then [StopNotifyFailed c]
              else [StopNotify c; CancelTask])
          ++ [final_disconnect env addr] /\
    fst (main env initial_world)
    = if stop_notify_raises env || disconnect_raises env
      then Raised BleakError else Val tt.
Proof.
  intros H.
  destruct (main_steady env H)
    as [status [k [id0 [ids [d [ch [_ [_ [_ [_ Hm]]]]]]]]]].
  unfold exec. rewrite Hm. cbn [fst snd]. fold (@exec World unit).
  cbn [trace set_trace].
  set (w0 := subscribed_world k id0 (address d) (CharUuid (uuid ch))).
  destruct (steady_state_trace (steady env) w0) as [ins [Ht Hi]].
  exists [PostSessionNew; SelectSession k; Discover;
          Connect (address d); Disconnect (address d)],
         (address d), (CharUuid (uuid ch)), ins.
  split; [reflexivity|]. split; [exact Hi|]. split; [|reflexivity].
  rewrite Ht. simpl. rewrite <- ?app_assoc. reflexivity.
Qed.

Lemma teardown_in_order_example :
  reaches_steady_state env_ok = true /\
  trace (exec (main env_ok) initial_world)
  = [PostSessionNew; SelectSession "AB12CD"; Discover;
     Connect "C0:26:DA:01:02:03"; Disconnect "C0:26:DA:01:02:03";
     Connect "C0:26:DA:01:02:03";
     StartNotify (CharUuid "0000fff1-0000-1000-8000-00805f9b34fb");
     CreateTask;
     Insert [mkReading (Some 7) 1 10 72] true;
     StopNotify (CharUuid "0000fff1-0000-1000-8000-00805f9b34fb");
     CancelTask; Disconnect "C0:26:DA:01:02:03"] /\
  exists pre addr c ins,
    steady_stage_entered pre = false /\
    Forall is_insert ins /\
    trace (exec (main env_ok) initial_world)
    = pre ++ [Connect addr; StartNotify c; CreateTask] ++ ins
          ++ (if stop_notify_raises env_ok
              then [StopNotifyFailed c]
              else [StopNotify c; CancelTask])
          ++ [final_disconnect env_ok addr] /\
    fst (main env_ok initial_world)
    = if stop_notify_raises env_ok || disconnect_raises env_ok
      then Raised BleakError else Val tt.
Proof.
  split; [reflexivity|]. split; [reflexivity|].
  exact (teardown_in_order env_ok eq_refl).
Defined.

(** C9, as stated, fails: in a cancelled run that reached the steady state
    and whose [stop_notify] raises, the writer task is never cancelled by
    [main]. *)
Lemma stop_notify_failure_skips_cancel :
  reaches_steady_state env_stop_notify_fails = true /\
  signal env_stop_notify_fails = CancelledError /\
  main env_ok initial_world <> main env_stop_notify_fails initial_world /\
  fst (main env_stop_notify_fails initial_world) = Raised BleakError /\
  trace (exec (main env_stop_notify_fails) initial_world)
  = [PostSessionNew; SelectSession "AB12CD"; Discover;
     Connect "C0:26:DA:01:02:03"; Disconnect "C0:26:DA:01:02:03";
     Connect "C0:26:DA:01:02:03";
     StartNotify (CharUuid "0000fff1-0000-1000-8000-00805f9b34fb");
     CreateTask;
     Insert [mkReading (Some 7) 1 10 72] true;
     StopNotifyFailed (CharUuid "0000fff1-0000-1000-8000-00805f9b34fb");
     Disconnect "C0:26:DA:01:02:03"] /\
  ~ In CancelTask (trace (exec (main env_stop_notify_fails) initial_world)).
Proof.
  split; [reflexivity|]. split; [reflexivity|]. split; [discriminate|].
  split; [reflexivity|]. split; [reflexivity|].
  simpl. intros H.
  repeat (destruct H as [H|H]; [discriminate|]). exact H.
Qed.

(** ** Further properties of the ingestion script *)

(** X1.  [request_session] never raises and makes exactly one POST.  It
    returns a key exactly when the POST came back with [response.ok] and a
    body holding ['session_key']; a transport error, a non-ok status or a
    missing field all give [None]. *)
Theorem request_session_answer (r : PostResult) (w : World) :
  exists ans,
    request_session r w
    = (Val ans, set_trace (trace w ++ [PostSessionNew]) w) /\
    forall k, ans = Some k <->
              exists status, r = PostResponse true status (Some k).
Proof.
  destruct r as [|[|] status [k|]];
    (eexists; split; [reflexivity|]); intros k'; split;
    try discriminate; try (intros [st H]; discriminate).
  - intros H. injection H as <-. now exists status.
  - intros [st H]. now injection H as _ <-.
Qed.

Lemma find_device_eq (dr cr dcr : bool) (devices : list Device)
    (services : string -> list Service) (w : World) :
  find_device dr cr dcr devices services w
  = if dr
    then (Raised BleakError, set_trace (trace w ++ [DiscoverFailed]) w)
    else
      let addr := address_after_scan devices w in
      let w1 := set_DEVICE_ADDRESS addr w in
      if (addr =? EmptyString)%string
      then (Val NoChar, set_trace (trace w ++ [Discover]) w1)
      else if cr
      then (Raised BleakError,
            set_trace (trace w ++ [Discover; ConnectFailed addr]) w1)
      else if dcr
      then (Raised BleakError,
            set_trace (trace w ++ [Discover; Connect addr;
                                   DisconnectFailed addr]) w1)
      else (Val match find can_notify (List.concat (services addr)) with
                | Some c => CharUuid (uuid c)
                | None => NoChar
                end,
            set_trace (trace w ++ [Discover; Connect addr; Disconnect addr])
                      w1).
Proof.
  unfold find_device, with_client, radio_call, finally, address_after_scan,
    bind, emit, modify, gets, ret, raise.
  destruct dr; [reflexivity|].
  destruct (find is_target devices) as [d|]; simpl.
  - destruct (address d =? EmptyString)%string; simpl;
      [rewrite <- ?app_assoc; reflexivity|].
    destruct cr; simpl; [rewrite <- ?app_assoc; reflexivity|].
    destruct dcr; simpl; rewrite <- ?app_assoc; reflexivity.
  - destruct w as [a c l b i k t]; simpl.
    destruct (a =? EmptyString)%string; simpl;
      [rewrite <- ?app_assoc; reflexivity|].
    destruct cr; simpl; [rewrite <- ?app_assoc; reflexivity|].
    destruct dcr; simpl; rewrite <- ?app_assoc; reflexivity.
Qed.

(** X2.  [find_device] changes nothing but [DEVICE_ADDRESS] and the trace:
    the variable gets the address of the first target found and is left as
    it was when none is found or the scan raises.  It ends with an
    exception exactly when one of its radio calls (scan, connect,
    disconnect) raised.  However it ends, every link it opened has had its
    disconnect called.  With an empty address after the scan it returns
    [-1] after the scan alone. *)
Theorem find_device_closes_its_link (dr cr dcr : bool)
    (devices : list Device) (services : string -> list Service) (w : World) :
  exists r new,
    find_device dr cr dcr devices services w
    = (r, set_trace (trace w ++ new)
            (set_DEVICE_ADDRESS
               (if dr then DEVICE_ADDRESS w
                else address_after_scan devices w) w)) /\
    link_stack new [] = Some [] /\
    (r = Raised BleakError <-> existsb is_radio_failure new = true) /\
    ((exists c, r = Val c) <-> existsb is_radio_failure new = false) /\
    (dr = false -> address_after_scan devices w = EmptyString ->
     r = Val NoChar /\ new = [Discover]).
Proof.
  rewrite find_device_eq. cbv zeta. destruct dr.
  - exists (Raised BleakError), [DiscoverFailed]. split.
    + destruct w; reflexivity.
    + repeat split; trivial; try discriminate.
      intros [c H]. discriminate.
  - destruct (String.eqb_spec (address_after_scan devices w) EmptyString)
      as [E|E].
    + do 2 eexists. split; [reflexivity|]. simpl.
      repeat split; trivial; try discriminate. now eexists.
    + set (addr := address_after_scan devices w) in *.
      destruct cr; [|destruct dcr];
        (do 2 eexists; split; [reflexivity|]); simpl;
        rewrite ?String.eqb_refl;
        repeat split; trivial; try discriminate;
        try (intros [c Hc]; discriminate); try (now eexists);
        try (intros; contradiction).
Qed.

Lemma can_notify_iff (c : Characteristic) :
  can_notify c = true <-> In "notify"%string (properties c).
Proof.
  unfold can_notify. rewrite existsb_exists. split.
  - intros [p [Hin Hp]]. apply String.eqb_eq in Hp. now subst.
  - intros H. exists "notify"%string. split; [exact H|apply String.eqb_refl].
Qed.

Lemma find_first {A} (f : A -> bool) (l : list A) (x : A) :
  find f l = Some x ->
  exists l1 l2, l = l1 ++ x :: l2 /\ f x = true /\
                forall y, In y l1 -> f y = false.
Proof.
  induction l as [|a l IH]; simpl; [discriminate|].
  destruct (f a) eqn:E.
  - intros H. injection H as <-. exists [], l. repeat split; trivial.
    intros y [].
  - intros H. destruct (IH H) as [l1 [l2 [-> [Hx Hl1]]]].
    exists (a :: l1), l2. repeat split; trivial.
    intros y [<-|Hy]; auto.
Qed.

(** X3.  [find_device] returns [-1] exactly when the scan returns and
    either the address is empty or the connection is made and closed
    without error and no characteristic of the device lists "notify";
    when it returns a uuid, it is that of the first characteristic, in
    service order, that lists "notify". *)
Theorem find_device_result (dr cr dcr : bool) (devices : list Device)
    (services : string -> list Service) (w : World) :
  let addr := address_after_scan devices w in
  let chars := List.concat (services addr) in
  (fst (find_device dr cr dcr devices services w) = Val NoChar <->
   dr = false /\
   (addr = EmptyString \/
    (cr = false /\ dcr = false /\
     forall c, In c chars -> ~ In "notify"%string (properties c)))) /\
  (forall u,
     fst (find_device dr cr dcr devices services w) = Val (CharUuid u) ->
     exists before c after,
       chars = before ++ c :: after /\ uuid c = u /\
       In "notify"%string (properties c) /\
       forall c', In c' before ->
                  ~ In "notify"%string (properties c')).
Proof.
  cbv zeta. rewrite find_device_eq. cbv zeta.
  set (addr := address_after_scan devices w).
  destruct dr; simpl.
  { split; [|intros u H; discriminate].
    split; [discriminate|]. intros [H _]. discriminate. }
  destruct (String.eqb_spec addr EmptyString) as [E|E]; simpl.
  { split; [split; auto|]. intros u H. discriminate. }
  destruct cr; simpl.
  { split; [|intros u H; discriminate].
    split; [discriminate|]. intros [_ [H|[H _]]]; [contradiction|discriminate]. }
  destruct dcr; simpl.
  { split; [|intros u H; discriminate].
    split; [discriminate|].
    intros [_ [H|[_ [H _]]]]; [contradiction|discriminate]. }
  destruct (find can_notify (List.concat (services addr))) as [c|] eqn:F.
  - split.
    + split; [discriminate|]. intros [_ [H|[_ [_ H]]]]; [contradiction|].
      apply find_some in F as [Hin Hc]. apply can_notify_iff in Hc.
      now apply H in Hin.
    + intros u H. injection H as <-.
      apply find_first in F as [l1 [l2 [Hl [Hc Hl1]]]].
      exists l1, c, l2. repeat split; trivial.
      * now apply can_notify_iff.
      * intros c' Hc' Hn. apply can_notify_iff in Hn.
        rewrite (Hl1 c' Hc') in Hn. discriminate.
  - split; [|intros u H; discriminate].
    split; trivial. intros _. split; trivial. right.
    repeat split; trivial. intros c Hin Hn.
    apply can_notify_iff in Hn.
    rewrite (find_none _ _ F c Hin) in Hn. discriminate.
Qed.

Lemma byte_at_range (data : list byte) (i : nat) : 0 <= byte_at data i <= 255.
Proof.
  unfold byte_at.
  destruct (Nat.lt_ge_cases i (List.length (map Z_of_byte data))) as [Hi|Hi].
  - rewrite (nth_indep _ 0 (Z_of_byte x00) Hi), map_nth. unfold Z_of_byte.
    pose proof (Byte.to_N_bounded (nth i data x00)). lia.
  - rewrite nth_overflow by exact Hi. lia.
Qed.

Lemma buffer_append_inj (r r' : Reading) (w : World) :
  buffer_append r w = buffer_append r' w -> r = r'.
Proof.
  intros E. apply (f_equal data_buffer) in E. simpl in E.
  apply app_inv_head in E. now injection E.
Qed.

(** X4.  Whenever the handler appends a reading, the reading carries the
    current session id and the clock value of the call, its [spo2] is byte
    16 and its [pulse] byte 17 of the frame, and both lie between 0 and
    255 (no narrower range is enforced). *)
Theorem appended_reading_fields (now : Z) (data : list byte) (w : World)
    (r : Reading) :
  exec (notification_handler now data) w = buffer_append r w ->
  session_id r = current_session_id w /\
  timestamp r = now /\
  spo2 r = byte_at data 16 /\ 0 <= spo2 r <= 255 /\
  pulse r = byte_at data 17 /\ 0 <= pulse r <= 255.
Proof.
  unfold exec. rewrite notification_handler_eq.
  destruct (has_reading data); simpl; intros E.
  - apply buffer_append_inj in E. subst r. simpl.
    pose proof (byte_at_range data 16). pose proof (byte_at_range data 17).
    repeat split; trivial; lia.
  - symmetry in E. now apply buffer_append_changes in E.
Qed.

Lemma appended_reading_fields_example :
  exec (notification_handler 6 frame_C) initial_world
  = buffer_append (mkReading None 6 255 200) initial_world /\
  spo2 (mkReading None 6 255 200) = byte_at frame_C 16.
Proof.
  split; [reflexivity|].
  exact (proj1 (proj2 (proj2
    (appended_reading_fields 6 frame_C initial_world
       (mkReading None 6 255 200) eq_refl)))).
Defined.

(** X5.  On frames of 19 bytes or more the handler looks at bytes 15 to
    18 only: two such frames that agree there have the same effect,
    whatever their other bytes and lengths. *)
Theorem handler_reads_bytes_15_to_18 (now : Z) (d1 d2 : list byte)
    (w : World) :
  (19 <= List.length d1)%nat -> (19 <= List.length d2)%nat ->
  (forall i, (15 <= i <= 18)%nat -> byte_at d1 i = byte_at d2 i) ->
  notification_handler now d1 w = notification_handler now d2 w.
Proof.
  intros H1 H2 H.
  rewrite !notification_handler_eq. unfold has_reading, frame_ok, reading_of.
  destruct (Nat.leb_spec 19 (List.length d1)); [|lia].
  destruct (Nat.leb_spec 19 (List.length d2)); [|lia].
  rewrite (H 15%nat), (H 16%nat), (H 17%nat), (H 18%nat) by lia.
  reflexivity.
Qed.

Lemma handler_reads_bytes_15_to_18_example :
  frame_A <> frame_A' /\
  notification_handler 1 frame_A initial_world
  = notification_handler 1 frame_A' initial_world.
Proof.
  split; [discriminate|].
  apply (handler_reads_bytes_15_to_18 1 frame_A frame_A' initial_world).
  - simpl. lia.
  - simpl. lia.
  - intros i Hi.
    assert (E : i = 15%nat \/ i = 16%nat \/ i = 17%nat \/ i = 18%nat) by lia.
    destruct E as [->|[->|[->| ->]]]; reflexivity.
Defined.

Lemma all_batches_app (t1 t2 : list Action) :
  all_batches (t1 ++ t2) = all_batches t1 ++ all_batches t2.
Proof. apply flat_map_app. Qed.

Lemma steady_step_trace (e : SteadyEvent) (w : World) :
  trace (exec (steady_step e) w)
  = trace w ++ match e with
               | Notification _ _ => []
               | WriterWakes ok =>
                 match data_buffer w with
                 | [] => []
                 | _ :: _ => [Insert (data_buffer w) ok]
                 end
               end.
Proof.
  unfold exec. destruct e as [now data|ok]; simpl.
  - rewrite notification_handler_eq, app_nil_r.
    now destruct (has_reading data).
  - rewrite db_writer_cycle_eq.
    destruct (data_buffer w) eqn:E; simpl.
    + now rewrite app_nil_r.
    + now destruct ok.
Qed.

Lemma decoded_of_tagged (sid : option Z) (e : SteadyEvent) :
  all_tagged sid (decoded_of sid e).
Proof.
  destruct e as [now data|ok]; simpl; [|constructor].
  destruct (has_reading data); repeat constructor.
Qed.

Lemma steady_state_batches (evs : list SteadyEvent) (w : World) :
  exists new,
    all_batches (trace (exec (steady_state evs) w))
    = all_batches (trace w) ++ new /\
    Forall (fun rows => rows <> []) new /\
    (all_tagged (current_session_id w) (data_buffer w) ->
     Forall (all_tagged (current_session_id w)) new /\
     all_tagged (current_session_id w)
                (data_buffer (exec (steady_state evs) w))).
Proof.
  revert w. induction evs as [|e evs IH]; intros w.
  - exists []. simpl. rewrite app_nil_r. repeat split; trivial; constructor.
  - rewrite exec_steady_cons.
    destruct (IH (exec (steady_step e) w)) as [new [Hb [Hne Ht]]].
    rewrite steady_step_session in Ht.
    rewrite Hb, steady_step_trace, all_batches_app, <- app_assoc.
    eexists. split; [reflexivity|].
    assert (Hbuf : all_tagged (current_session_id w) (data_buffer w) ->
                   all_tagged (current_session_id w)
                              (data_buffer (exec (steady_step e) w))).
    { intros Hw. rewrite steady_step_buffer.
      destruct (is_ok_flush e); [constructor|].
      apply Forall_app. split; trivial. apply decoded_of_tagged. }
    destruct e as [now data|ok]; simpl.
    + split; trivial. intros Hw. apply Ht. now apply Hbuf.
    + destruct (data_buffer w) as [|r rs] eqn:E; simpl.
      * split; trivial. intros Hw. apply Ht. apply Hbuf. exact Hw.
      * split; [constructor; [discriminate|exact Hne]|].
        intros Hw. destruct (Ht (Hbuf Hw)) as [Hn Hf]. split; trivial.
        constructor; trivial.
Qed.

(** X6.  The writer never hands an empty batch to the datastore: every
    batch submitted during the steady state has at least one reading. *)
Theorem writer_never_submits_an_empty_batch
    (evs : list SteadyEvent) (w : World) :
  exists new,
    all_batches (trace (exec (steady_state evs) w))
    = all_batches (trace w) ++ new /\
    Forall (fun rows => rows <> []) new.
Proof.
  destruct (steady_state_batches evs w) as [new [H1 [H2 _]]].
  now exists new.
Qed.

(** A run whose setup succeeds, as one equation. *)

Lemma steady_state_globals (evs : list SteadyEvent) (w : World) :
  DEVICE_ADDRESS (exec (steady_state evs) w) = DEVICE_ADDRESS w /\
  CHAR_UUID (exec (steady_state evs) w) = CHAR_UUID w /\
  session_key (exec (steady_state evs) w) = session_key w /\
  latest_data (exec (steady_state evs) w) = latest_data w.
Proof.
  revert w. induction evs as [|e evs IH]; intros w; [now repeat split|].
  rewrite exec_steady_cons.
  destruct (IH (exec (steady_step e) w)) as [H1 [H2 [H3 H4]]].
  rewrite H1, H2, H3, H4. unfold exec.
  destruct e as [now data|ok]; simpl.
  - rewrite notification_handler_eq. now destruct (has_reading data).
  - rewrite db_writer_cycle_eq.
    destruct (data_buffer w); [now repeat split|]. now destruct ok.
Qed.

(** A run whose setup succeeds but which a radio call stops before the
    steady state: the session id is set, nothing was decoded or
    submitted. *)
Lemma main_stops_early (env : Env) :
  setup_fails env = false -> reaches_steady_state env = false ->
  exists id0 ids,
    sessions_query env = Val (id0 :: ids) /\
    current_session_id (exec (main env) initial_world) = Some id0 /\
    data_buffer (exec (main env) initial_world) = [] /\
    all_batches (trace (exec (main env) initial_world)) = [].
Proof.
  run_setup env.
  destruct pr as [|[|] status [k|]]; simpl; try discriminate.
  destruct (String.eqb_spec k EmptyString); simpl; try discriminate.
  destruct sq as [[|id0 ids]|e]; simpl; try discriminate.
  run_find_device dr pcr pdr devs svcs; try discriminate;
    try (intros _ _; now exists id0, ids).
  destruct cr; simpl; [intros _ _; now exists id0, ids|].
  destruct snr; simpl; [|discriminate].
  intros _ _. exists id0, ids. now destruct dcr.
Qed.

(** X7.  In a run whose setup succeeds, the session id is the first id
    the sessions query returned, and every reading the run submits or
    still buffers at its end is tagged with that id. *)
Theorem main_tags_readings_with_resolved_id (env : Env) :
  setup_fails env = false ->
  exists id0 ids,
    sessions_query env = Val (id0 :: ids) /\
    current_session_id (exec (main env) initial_world) = Some id0 /\
    Forall (all_tagged (Some id0))
           (all_batches (trace (exec (main env) initial_world))) /\
    all_tagged (Some id0) (data_buffer (exec (main env) initial_world)).
Proof.
  intros H. destruct (reaches_steady_state env) eqn:R.
  - destruct (main_steady env R)
      as [status [k [id0 [ids [d [ch [_ [Hq [_ [_ Hm]]]]]]]]]].
    exists id0, ids. split; [exact Hq|].
    unfold exec. rewrite Hm. cbn [snd]. fold (@exec World unit).
    cbn [current_session_id data_buffer trace set_trace].
    set (w0 := subscribed_world k id0 (address d) (CharUuid (uuid ch))).
    destruct (steady_state_batches (steady env) w0) as [new [Hb [_ Ht]]].
    destruct Ht as [Hn Hf]; [constructor|].
    rewrite steady_state_session. split; [reflexivity|].
    split; [|exact Hf].
    assert (E : all_batches
                  (if stop_notify_raises env
                   then [StopNotifyFailed (CharUuid (uuid ch))]
                   else [StopNotify (CharUuid (uuid ch)); CancelTask]) = [])
      by now destruct (stop_notify_raises env).
    assert (E' : all_batches [final_disconnect env (address d)] = [])
      by (unfold final_disconnect; now destruct (disconnect_raises env)).
    rewrite !all_batches_app, Hb, E, E', !app_nil_r. exact Hn.
  - destruct (main_stops_early env H R) as [id0 [ids [Hq [Hs [Hb Ht]]]]].
    exists id0, ids. rewrite Hb, Ht. repeat split; trivial; constructor.
Qed.

Lemma main_tags_readings_example :
  setup_fails env_unflushed = false /\
  all_batches (trace (exec (main env_unflushed) initial_world))
  = [[mkReading (Some 7) 1 10 72]] /\
  exists id0 ids,
    sessions_query env_unflushed = Val (id0 :: ids) /\
    current_session_id (exec (main env_unflushed) initial_world) = Some id0 /\
    Forall (all_tagged (Some id0))
           (all_batches (trace (exec (main env_unflushed) initial_world))) /\
    all_tagged (Some id0)
               (data_buffer (exec (main env_unflushed) initial_world)).
Proof.
  split; [reflexivity|]. split; [reflexivity|].
  exact (main_tags_readings_with_resolved_id env_unflushed eq_refl).
Defined.

(** X8.  There is no final flush.  In a run that reaches the steady state,
    the readings decoded after the last successful flush are still in the
    buffer when [main] ends, whether it returns or [stop_notify] or the
    disconnect raises; the accepted batches followed by that buffer are
    exactly the readings decoded during the run. *)
Theorem main_leaves_unflushed_readings (env : Env) :
  reaches_steady_state env = true ->
  exists id0 ids,
    sessions_query env = Val (id0 :: ids) /\
    data_buffer (exec (main env) initial_world)
    = decoded (Some id0) (after_last_ok_flush (steady env)) /\
    List.concat (ok_batches (trace (exec (main env) initial_world)))
      ++ data_buffer (exec (main env) initial_world)
    = decoded (Some id0) (steady env).
Proof.
  intros H.
  destruct (main_steady env H)
    as [status [k [id0 [ids [d [ch [_ [Hq [_ [_ Hm]]]]]]]]]].
  exists id0, ids. split; [exact Hq|].
  unfold exec. rewrite Hm. cbn [snd]. fold (@exec World unit).
  cbn [current_session_id data_buffer trace set_trace].
  set (w0 := subscribed_world k id0 (address d) (CharUuid (uuid ch))).
  rewrite !ok_batches_app.
  assert (E : ok_batches
                (if stop_notify_raises env
                 then [StopNotifyFailed (CharUuid (uuid ch))]
                 else [StopNotify (CharUuid (uuid ch)); CancelTask]) = [])
    by now destruct (stop_notify_raises env).
  assert (E' : ok_batches [final_disconnect env (address d)] = [])
    by (unfold final_disconnect; now destruct (disconnect_raises env)).
  rewrite E, E', !app_nil_r.
  rewrite steady_state_conserves, steady_state_buffer. simpl.
  split; [|reflexivity].
  now destruct (existsb is_ok_flush (steady env)).
Qed.

Lemma main_leaves_unflushed_readings_example :
  reaches_steady_state env_unflushed = true /\
  data_buffer (exec (main env_unflushed) initial_world)
  = [mkReading (Some 7) 6 255 200] /\
  ok_batches (trace (exec (main env_unflushed) initial_world))
  = [[mkReading (Some 7) 1 10 72]] /\
  exists id0 ids,
    sessions_query env_unflushed = Val (id0 :: ids) /\
    data_buffer (exec (main env_unflushed) initial_world)
    = decoded (Some id0) (after_last_ok_flush (steady env_unflushed)) /\
    List.concat (ok_batches (trace (exec (main env_unflushed) initial_world)))
      ++ data_buffer (exec (main env_unflushed) initial_world)
    = decoded (Some id0) (steady env_unflushed).
Proof.
  split; [reflexivity|]. split; [reflexivity|]. split; [reflexivity|].
  exact (main_leaves_unflushed_readings env_unflushed eq_refl).
Defined.

Lemma link_stack_app (t1 t2 : list Action) (st : list string) :
  link_stack (t1 ++ t2) st
  = match link_stack t1 st with
    | Some st' => link_stack t2 st'
    | None => None
    end.
Proof.
  revert st. induction t1 as [|a t1 IH]; intros st; [reflexivity|].
  destruct a; simpl; trivial;
    destruct st as [|b st']; trivial;
    match goal with
    | |- context [(?x =? b)%string] => destruct (x =? b)%string
    end; trivial.
Qed.

Lemma link_stack_inserts (ins : list Action) (st : list string) :
  Forall is_insert ins -> link_stack ins st = Some st.
Proof.
  induction 1 as [|a ins Ha _ IH]; [reflexivity|].
  destruct a; simpl in Ha; try contradiction. exact IH.
Qed.

Lemma no_failure_in_inserts (ins : list Action) :
  Forall is_insert ins -> existsb is_radio_failure ins = false.
Proof.
  induction 1 as [|a ins Ha _ IH]; [reflexivity|].
  destruct a; simpl in Ha; try contradiction. exact IH.
Qed.

(** X9.  However [main] ends, in every environment, every device link it
    opened has had its disconnect called, innermost first, and no
    disconnect is called on a link that is not open.  [main] ends with an
    exception exactly when one of its radio calls raised; otherwise it
    returns. *)
Theorem main_ends_with_every_link_closed (env : Env) :
  link_stack (trace (exec (main env) initial_world)) [] = Some [] /\
  fst (main env initial_world)
  = if existsb is_radio_failure (trace (exec (main env) initial_world))
    then Raised BleakError else Val tt.
Proof.
  destruct (reaches_steady_state env) eqn:R.
  - destruct (main_steady env R)
      as [status [k [id0 [ids [d [ch [_ [_ [_ [_ Hm]]]]]]]]]].
    unfold exec. rewrite Hm. cbn [fst snd]. fold (@exec World unit).
    cbn [trace set_trace].
    set (w0 := subscribed_world k id0 (address d) (CharUuid (uuid ch))).
    destruct (steady_state_trace (steady env) w0) as [ins [Ht Hi]].
    rewrite Ht, !existsb_app, !link_stack_app. simpl.
    rewrite String.eqb_refl, (link_stack_inserts ins _ Hi),
      (no_failure_in_inserts ins Hi).
    unfold final_disconnect.
    destruct (stop_notify_raises env), (disconnect_raises env); simpl;
      rewrite String.eqb_refl; split; reflexivity.
  - revert R. run_setup env.
    destruct pr as [|[|] status [k|]]; simpl; auto.
    destruct (String.eqb_spec k EmptyString); simpl; auto.
    destruct sq as [[|id0 ids]|e]; simpl; auto.
    run_find_device dr pcr pdr devs svcs;
      rewrite ?String.eqb_refl; auto.
    destruct cr; simpl; rewrite ?String.eqb_refl; auto.
    destruct snr; simpl; [|discriminate].
    destruct dcr; simpl; rewrite ?String.eqb_refl; auto.
Qed.

(** X10.  A run whose session is not issued or not resolved never uses
    the radio (no scan, no connection, no subscription), leaves the
    session id unset and buffers nothing. *)
Theorem no_session_no_radio (env : Env) :
  issuance_fails env = true \/ resolve_fails env = true ->
  existsb uses_radio (trace (exec (main env) initial_world)) = false /\
  current_session_id (exec (main env) initial_world) = None /\
  data_buffer (exec (main env) initial_world) = [].
Proof.
  run_setup env.
  destruct pr as [|[|] status [k|]]; simpl; auto.
  destruct (String.eqb_spec k EmptyString); simpl; auto.
  destruct sq as [[|id0 ids]|e]; simpl; auto.
  intros [H|H]; discriminate.
Qed.

Lemma no_session_no_radio_example :
  issuance_fails env_no_session = true /\
  trace (exec (main env_no_session) initial_world) = [PostSessionNew] /\
  existsb uses_radio (trace (exec (main env_no_session) initial_world))
  = false.
Proof.
  split; [reflexivity|]. split; [reflexivity|].
  exact (proj1 (no_session_no_radio env_no_session (or_introl eq_refl))).
Defined.

(** X11.  A run that reaches the steady state calls connect and
    disconnect only on the first advertised device named BLT_M70C and
    [start_notify] and [stop_notify] only on its first notifiable
    characteristic; the two module variables hold that address and that
    uuid at the end. *)
Theorem main_uses_first_target_and_first_notifiable (env : Env) :
  reaches_steady_state env = true ->
  exists d ch,
    find is_target (devices env) = Some d /\
    find can_notify (List.concat (services env (address d))) = Some ch /\
    DEVICE_ADDRESS (exec (main env) initial_world) = address d /\
    CHAR_UUID (exec (main env) initial_world) = CharUuid (uuid ch) /\
    forall a, In a (trace (exec (main env) initial_world)) ->
              match a with
              | Connect x | Disconnect x
              | ConnectFailed x | DisconnectFailed x => x = address d
              | StartNotify c | StopNotify c
              | StartNotifyFailed c | StopNotifyFailed c =>
                c = CharUuid (uuid ch)
              | _ => True
              end.
Proof.
  intros H.
  destruct (main_steady env H)
    as [status [k [id0 [ids [d [ch [_ [_ [Hd [Hc Hm]]]]]]]]]].
  exists d, ch. split; [exact Hd|]. split; [exact Hc|].
  unfold exec. rewrite Hm. cbn [snd]. fold (@exec World unit).
  cbn [DEVICE_ADDRESS CHAR_UUID trace set_trace].
  set (w0 := subscribed_world k id0 (address d) (CharUuid (uuid ch))).
  destruct (steady_state_globals (steady env) w0) as [Ha [Hu _]].
  rewrite Ha, Hu. split; [reflexivity|]. split; [reflexivity|].
  destruct (steady_state_trace (steady env) w0) as [ins [Ht Hi]].
  rewrite Ht. intros a Hin.
  apply in_app_or in Hin as [Hin|Hin];
    [apply in_app_or in Hin as [Hin|Hin]|].
  - simpl in Hin.
    repeat (destruct Hin as [<-|Hin]; [simpl; trivial|]). contradiction.
  - apply (proj1 (Forall_forall _ _) Hi) in Hin. now destruct a.
  - unfold final_disconnect in Hin.
    destruct (stop_notify_raises env), (disconnect_raises env);
      simpl in Hin;
      repeat (destruct Hin as [<-|Hin]; [simpl; trivial|]); contradiction.
Qed.

Lemma main_uses_first_target_example :
  reaches_steady_state env_ok = true /\
  exists d ch,
    find is_target (devices env_ok) = Some d /\
    find can_notify (List.concat (services env_ok (address d))) = Some ch /\
    DEVICE_ADDRESS (exec (main env_ok) initial_world) = address d /\
    CHAR_UUID (exec (main env_ok) initial_world) = CharUuid (uuid ch) /\
    forall a, In a (trace (exec (main env_ok) initial_world)) ->
              match a with
              | Connect x | Disconnect x
              | ConnectFailed x | DisconnectFailed x => x = address d
              | StartNotify c | StopNotify c
              | StartNotifyFailed c | StopNotifyFailed c =>
                c = CharUuid (uuid ch)
              | _ => True
              end.
Proof.
  split; [reflexivity|].
  exact (main_uses_first_target_and_first_notifiable env_ok eq_refl).
Defined.

End IngestFacts.

(** * Properties of the backend *)
Module BackendFacts.
Import Backend.

(** ** Session keys *)

Lemma prefix_digits (u : N) :
  substring 0 6 (uuid_str u)
  = string_of_list_ascii (map (hex_digit_at u) (seq 0 6)).
Proof. reflexivity. Qed.

Lemma key_digits (u : N) :
  generate_session_key u
  = string_of_list_ascii
      (map (fun i => upper_char (hex_digit_at u i)) (seq 0 6)).
Proof. reflexivity. Qed.

Lemma upper_hex_not_lower (d : N) : is_lower (upper_char (hex_char d)) = false.
Proof.
  unfold hex_char. generalize (N.to_nat d) as n. intros n.
  do 16 (destruct n as [|n]; [reflexivity|]).
  destruct n; reflexivity.
Qed.

Ltac same_or_differ :=
  first [reflexivity | discriminate].

Ltac scan_digit m :=
  do 16 (destruct m as [|m]; [same_or_differ|]); destruct m; same_or_differ.

(** [upper] keeps distinct hex digits distinct. *)
Lemma upper_hex_inj (d1 d2 : N) :
  upper_char (hex_char d1) = upper_char (hex_char d2) ->
  hex_char d1 = hex_char d2.
Proof.
  unfold hex_char. generalize (N.to_nat d1) as n, (N.to_nat d2) as m.
  intros n m.
  do 16 (destruct n as [|n]; [scan_digit m|]).
  destruct n; scan_digit m.
Qed.

Lemma create_session_eq (fault : bool) (u : N) (now : string) (db : Database) :
  create_session fault u now db
  = if fault then (Val InternalServerError, db)
    else (Val (SessionCreated (generate_session_key u)),
          insert_session (generate_session_key u) now db).
Proof. destruct fault; reflexivity. Qed.

(** C10.  The key [create_session] answers with is the uppercased prefix of
    six characters of the UUID string, that is its first six hex digits in
    upper case: it has exactly 6 characters, none of them lowercase.  The
    route answers with that key whenever the insert does not raise. *)
Theorem session_key_shape (fault : bool) (u : N) (now : string)
    (db : Database) :
  fst (create_session fault u now db)
  = (if fault then Val InternalServerError
     else Val (SessionCreated (generate_session_key u))) /\
  generate_session_key u
  = string_of_list_ascii
      (map (fun i => upper_char (hex_digit_at u i)) (seq 0 6)) /\
  String.length (generate_session_key u) = 6%nat /\
  no_lowercase (generate_session_key u).
Proof.
  rewrite create_session_eq. split; [now destruct fault|].
  split; [apply key_digits|]. split; [reflexivity|].
  intros c Hc. rewrite key_digits, list_ascii_of_string_of_list_ascii in Hc.
  apply in_map_iff in Hc as [i [<- _]]. apply upper_hex_not_lower.
Qed.

(** C8, as the code has it.  Two calls that both pass their insert answer
    with the keys of their UUIDs and store one row each, whatever the keys:
    nothing compares a new key with the stored ones.  The two keys are
    equal exactly when the two UUID strings agree on their first six
    characters. *)
Theorem session_keys_equal_iff_prefixes_equal
    (u1 u2 : N) (now1 now2 : string) (db : Database) :
  (generate_session_key u1 = generate_session_key u2
   <-> substring 0 6 (uuid_str u1) = substring 0 6 (uuid_str u2)) /\
  bind (create_session false u1 now1)
       (fun r1 => bind (create_session false u2 now2)
                       (fun r2 => ret (r1, r2))) db
  = (Val (SessionCreated (generate_session_key u1),
          SessionCreated (generate_session_key u2)),
     insert_session (generate_session_key u2) now2
       (insert_session (generate_session_key u1) now1 db)).
Proof.
  split; [|reflexivity].
  rewrite !key_digits, !prefix_digits. simpl. split; intros H.
  - injection H as H0 H1 H2 H3 H4 H5.
    unfold hex_digit_at in *.
    apply upper_hex_inj in H0, H1, H2, H3, H4, H5.
    now rewrite H0, H1, H2, H3, H4, H5.
  - injection H as H0 H1 H2 H3 H4 H5.
    now rewrite H0, H1, H2, H3, H4, H5.
Qed.

(** C8, as stated, fails: two distinct version-4 UUIDs get the same key,
    both calls answer with it and both rows are stored. *)
Lemma session_keys_can_collide :
  uuid_a <> uuid_b /\
  is_uuid4 uuid_a = true /\ is_uuid4 uuid_b = true /\
  generate_session_key uuid_a = "3F2A9C"%string /\
  generate_session_key uuid_b = "3F2A9C"%string /\
  bind (create_session false uuid_a "2025-01-01T10:00:00")
       (fun r1 => bind (create_session false uuid_b "2025-01-01T10:00:05")
                       (fun r2 => ret (r1, r2))) empty_db
  = (Val (SessionCreated "3F2A9C", SessionCreated "3F2A9C"),
     {| sessions := [mkSession 1 "3F2A9C" "2025-01-01T10:00:00";
                     mkSession 2 "3F2A9C" "2025-01-01T10:00:05"];
        health_data := [] |}).
Proof.
  split; [discriminate|].
  repeat split; vm_compute; reflexivity.
Qed.

(** ** Retrieval *)

Lemma insert_desc_perm (r : Reading) (l : list Reading) :
  Permutation (insert_desc r l) (r :: l).
Proof.
  induction l as [|x xs IH]; simpl; [reflexivity|].
  destruct (timestamp x <=? timestamp r); [reflexivity|].
  rewrite IH. apply perm_swap.
Qed.

Lemma order_timestamp_desc_perm (l : list Reading) :
  Permutation (order_timestamp_desc l) l.
Proof.
  induction l as [|x xs IH]; simpl; [reflexivity|].
  rewrite insert_desc_perm. now constructor.
Qed.

Lemma insert_desc_sorted (r : Reading) (l : list Reading) :
  StronglySorted newer_or_equal l ->
  StronglySorted newer_or_equal (insert_desc r l).
Proof.
  induction 1 as [|x xs Hs IH Hx]; simpl.
  - repeat constructor.
  - destruct (Z.leb_spec (timestamp x) (timestamp r)) as [Hle|Hlt].
    + constructor; [now constructor|].
      constructor; [exact Hle|].
      eapply Forall_impl; [|exact Hx].
      unfold newer_or_equal. intros a Ha. lia.
    + constructor; [exact IH|].
      rewrite (Forall_forall (newer_or_equal x)). intros a Ha.
      apply (Permutation_in _ (insert_desc_perm r xs)) in Ha.
      destruct Ha as [<-|Ha].
      * unfold newer_or_equal. lia.
      * now apply (proj1 (Forall_forall _ _) Hx).
Qed.

Lemma order_timestamp_desc_sorted (l : list Reading) :
  StronglySorted newer_or_equal (order_timestamp_desc l).
Proof.
  induction l as [|x xs IH]; simpl; [constructor|].
  now apply insert_desc_sorted.
Qed.

(** In a sorted list every element of a prefix is at least as new as every
    element after it. *)
Lemma sorted_split (l1 l2 : list Reading) :
  StronglySorted newer_or_equal (l1 ++ l2) ->
  StronglySorted newer_or_equal l1 /\
  forall a b, In a l1 -> In b l2 -> newer_or_equal a b.
Proof.
  induction l1 as [|x xs IH]; simpl; intros H.
  - split; [constructor|]. intros a b [].
  - inversion H as [|y ys Hs Hall]; subst.
    destruct (IH Hs) as [Hxs Hcross]. split.
    + constructor; [exact Hxs|].
      apply Forall_app in Hall. tauto.
    + intros a b [<-|Ha] Hb.
      * apply (proj1 (Forall_forall _ _) Hall). apply in_or_app. now right.
      * now apply Hcross.
Qed.

Lemma select_session_ids_nil (key : string) (db : Database) :
  select_session_ids key db = [] <-> ~ key_is_stored key db.
Proof.
  unfold select_session_ids, key_is_stored. split.
  - intros H [s [Hin Hk]].
    assert (Hs : In (id s) (map id (filter
              (fun s0 => (session_key s0 =? key)%string) (sessions db)))).
    { apply in_map, filter_In. split; trivial. now apply String.eqb_eq. }
    rewrite H in Hs. contradiction.
  - intros H.
    destruct (filter (fun s0 => (session_key s0 =? key)%string) (sessions db))
      as [|s rest] eqn:E; [reflexivity|].
    exfalso. apply H. exists s.
    assert (Hs : In s (s :: rest)) by now left.
    rewrite <- E in Hs. apply filter_In in Hs as [Hin Hk].
    split; trivial. now apply String.eqb_eq.
Qed.

Lemma of_session_true (sid : Z) (r : Reading) :
  of_session sid r = true <-> session_id r = Some sid.
Proof.
  unfold of_session. destruct (session_id r) as [i|].
  - rewrite Z.eqb_eq. split; congruence.
  - split; discriminate.
Qed.

Lemma in_firstn {A} (n : nat) (l : list A) (x : A) :
  In x (firstn n l) -> In x l.
Proof.
  intros H. rewrite <- (firstn_skipn n l). apply in_or_app. now left.
Qed.

(** What the health-data query returns. *)
Lemma select_health_data_spec (sid : Z) (db : Database) :
  let rows := select_health_data sid db in
  (List.length rows <= 50)%nat /\
  (forall r, In r rows -> In r (health_data db) /\ session_id r = Some sid) /\
  StronglySorted newer_or_equal rows /\
  (forall r r', In r (health_data db) -> session_id r = Some sid ->
                ~ In r rows -> In r' rows -> newer_or_equal r' r).
Proof.
  unfold select_health_data.
  set (mine := filter (of_session sid) (health_data db)).
  set (sorted := order_timestamp_desc mine).
  assert (Hsorted : StronglySorted newer_or_equal
                      (firstn 50 sorted ++ skipn 50 sorted)).
  { rewrite firstn_skipn. apply order_timestamp_desc_sorted. }
  apply sorted_split in Hsorted as [Hfirst Hcross].
  cbv zeta. split; [apply firstn_le_length|].
  split; [|split; [exact Hfirst|]].
  - intros r Hr. apply in_firstn in Hr.
    apply (Permutation_in _ (order_timestamp_desc_perm mine)) in Hr.
    apply filter_In in Hr as [Hin Hs]. split; trivial.
    now apply of_session_true.
  - intros r r' Hin Hsid Hnot Hr'.
    apply Hcross; trivial.
    assert (Hs : In r sorted).
    { apply (Permutation_in _
               (Permutation_sym (order_timestamp_desc_perm mine))).
      apply filter_In. split; trivial. now apply of_session_true. }
    rewrite <- (firstn_skipn 50 sorted) in Hs.
    apply in_app_or in Hs as [Hs|Hs]; [contradiction|exact Hs].
Qed.

(** The rows returned are the first 50, or all when there are fewer, of
    the session's rows in descending order: with the rows left out they
    make up exactly the session's rows. *)
Lemma select_health_data_complete (sid : Z) (db : Database) :
  exists rest,
    Permutation (select_health_data sid db ++ rest)
                (filter (of_session sid) (health_data db)) /\
    StronglySorted newer_or_equal (select_health_data sid db ++ rest) /\
    (List.length (select_health_data sid db)
     = Nat.min 50 (List.length (filter (of_session sid) (health_data db)))
    )%nat.
Proof.
  unfold select_health_data.
  set (mine := filter (of_session sid) (health_data db)).
  exists (skipn 50 (order_timestamp_desc mine)).
  rewrite firstn_skipn. split; [apply order_timestamp_desc_perm|].
  split; [apply order_timestamp_desc_sorted|].
  rewrite length_firstn.
  now rewrite (Permutation_length (order_timestamp_desc_perm mine)).
Qed.

(** When a query raises, the route answers 500. *)
Lemma get_data_fault (f1 f2 : bool) (key : string) (db : Database) :
  f1 = true \/ (f2 = true /\ key_is_stored key db) ->
  get_data f1 f2 key db = (Val InternalServerError, db).
Proof.
  unfold get_data, try_except, bind, execute.
  intros [->|[-> Hk]]; [reflexivity|].
  destruct f1; [reflexivity|].
  destruct (select_session_ids key db) eqn:E; [|reflexivity].
  apply select_session_ids_nil in E. contradiction.
Qed.

(** C7.  For a request whose queries execute: when no stored session has
    the key the answer is not-found; otherwise the key resolves to the id
    of the first matching session and the answer is at most 50 rows of
    [health_data], all of that session, newest first, and no row of the
    session that was left out is newer than a row that was returned.  The
    rows are no fewer than they may be: with the rows left out they are
    exactly the session's rows, in descending order, and their number is
    50 or, when the session has fewer, the number of its rows. *)
Theorem get_data_spec (key : string) (db : Database) :
  (~ key_is_stored key db ->
   get_data false false key db = (Val SessionNotFound, db)) /\
  (key_is_stored key db ->
   exists sid rows left_out,
     resolved_id key db = Some sid /\
     get_data false false key db = (Val (HealthData rows), db) /\
     (List.length rows <= 50)%nat /\
     (forall r, In r rows ->
                In r (health_data db) /\ session_id r = Some sid) /\
     StronglySorted newer_or_equal rows /\
     (forall r r', In r (health_data db) -> session_id r = Some sid ->
                   ~ In r rows -> In r' rows -> newer_or_equal r' r) /\
     Permutation (rows ++ left_out)
                 (filter (of_session sid) (health_data db)) /\
     StronglySorted newer_or_equal (rows ++ left_out) /\
     (List.length rows
      = Nat.min 50 (List.length (filter (of_session sid) (health_data db)))
     )%nat).
Proof.
  unfold get_data, resolved_id, try_except, bind, execute. split.
  - intros H. apply select_session_ids_nil in H. now rewrite H.
  - intros H.
    destruct (select_session_ids key db) as [|sid rest] eqn:E.
    + apply select_session_ids_nil in E. contradiction.
    + destruct (select_health_data_complete sid db) as [left_out Hc].
      destruct (select_health_data_spec sid db) as [H1 [H2 [H3 H4]]].
      exists sid, (select_health_data sid db), left_out.
      split; [reflexivity|]. split; [reflexivity|].
      repeat split; trivial; try apply Hc; now apply H2.
Qed.

(** ** Further properties of the backend *)

Lemma key_is_stored_insert (k key now : string) (db : Database) :
  key_is_stored k (insert_session key now db) <->
  key_is_stored k db \/ k = key.
Proof.
  unfold key_is_stored, insert_session. simpl. split.
  - intros [s [Hin Hk]]. apply in_app_or in Hin as [Hin|[<-|[]]].
    + left. now exists s.
    + right. now symmetry.
  - intros [[s [Hin Hk]]| ->].
    + exists s. split; trivial. apply in_or_app. now left.
    + eexists. split; [apply in_or_app; right; left; reflexivity|].
      reflexivity.
Qed.

Lemma get_data_eq (f1 f2 : bool) (key : string) (db : Database) :
  get_data f1 f2 key db
  = (Val (if f1 then InternalServerError
          else match select_session_ids key db with
               | [] => SessionNotFound
               | sid :: _ =>
                 if f2 then InternalServerError
                 else HealthData (select_health_data sid db)
               end), db).
Proof.
  unfold get_data, try_except, bind, execute.
  destruct f1; [reflexivity|].
  destruct (select_session_ids key db); [reflexivity|].
  destruct f2; reflexivity.
Qed.

(** X12.  [create_session] answers 500 and stores nothing when the insert
    raises.  When it does not, the stored keys are the old ones and the new
    key, [health_data] is untouched, and [get_data] with the new key
    answers with rows, never with not-found. *)
Theorem created_session_can_be_looked_up (u : N) (now : string)
    (db : Database) :
  create_session true u now db = (Val InternalServerError, db) /\
  (forall k, key_is_stored k (exec (create_session false u now) db) <->
             key_is_stored k db \/ k = generate_session_key u) /\
  health_data (exec (create_session false u now) db) = health_data db /\
  exists rows,
    get_data false false (generate_session_key u)
             (exec (create_session false u now) db)
    = (Val (HealthData rows), exec (create_session false u now) db).
Proof.
  unfold exec. rewrite !create_session_eq. cbn [snd].
  split; [reflexivity|]. split; [intros k; apply key_is_stored_insert|].
  split; [reflexivity|].
  rewrite get_data_eq.
  destruct (select_session_ids (generate_session_key u)
              (insert_session (generate_session_key u) now db)) eqn:E.
  - apply select_session_ids_nil in E. exfalso. apply E.
    apply key_is_stored_insert. now right.
  - now eexists.
Qed.

(** X13.  [get_data] never changes the store and always answers.  It
    answers 500 exactly when the sessions query raises, or the key is
    stored and the health-data query raises; the second query is not made
    for an unknown key. *)
Theorem get_data_answers_500_iff_a_query_raises
    (f1 f2 : bool) (key : string) (db : Database) :
  exists resp,
    get_data f1 f2 key db = (Val resp, db) /\
    (resp = InternalServerError <->
     f1 = true \/ (f2 = true /\ key_is_stored key db)).
Proof.
  rewrite get_data_eq. eexists. split; [reflexivity|].
  destruct f1; [intuition|].
  destruct (select_session_ids key db) as [|sid rest] eqn:E.
  - apply select_session_ids_nil in E.
    split; [discriminate|]. intros [H|[_ H]]; [discriminate|contradiction].
  - assert (K : key_is_stored key db).
    { destruct (select_session_ids_nil key db) as [_ H].
      unfold key_is_stored.
      assert (N : ~ ~ key_is_stored key db).
      { intros Hn. apply H in Hn. congruence. }
      unfold select_session_ids in E.
      destruct (filter (fun s => (session_key s =? key)%string) (sessions db))
        as [|s l] eqn:F; [discriminate|].
      exists s. assert (Hs : In s (s :: l)) by now left.
      rewrite <- F in Hs. apply filter_In in Hs as [Hin Hk].
      split; trivial. now apply String.eqb_eq. }
    destruct f2; split; trivial; try discriminate.
    + intros _. right. now split.
    + intros [H|[H _]]; discriminate.
Qed.

(** X14.  For a stored key [get_data] returns as many rows as the session
    has, capped at 50; a session with at most 50 rows gets all of them. *)
Theorem get_data_returns_all_rows_up_to_50 (key : string) (db : Database) :
  key_is_stored key db ->
  exists sid rows,
    resolved_id key db = Some sid /\
    get_data false false key db = (Val (HealthData rows), db) /\
    List.length rows
    = Nat.min 50 (List.length (filter (of_session sid) (health_data db))) /\
    ((List.length (filter (of_session sid) (health_data db)) <= 50)%nat ->
     Permutation rows (filter (of_session sid) (health_data db))).
Proof.
  intros K. rewrite get_data_eq. unfold resolved_id.
  destruct (select_session_ids key db) as [|sid rest] eqn:E.
  - apply select_session_ids_nil in E. contradiction.
  - exists sid, (select_health_data sid db).
    split; [reflexivity|]. split; [reflexivity|].
    unfold select_health_data.
    set (mine := filter (of_session sid) (health_data db)).
    pose proof (Permutation_length (order_timestamp_desc_perm mine)) as L.
    split.
    + rewrite length_firstn, L. reflexivity.
    + intros Hle. rewrite firstn_all2 by lia.
      apply order_timestamp_desc_perm.
Qed.

Lemma get_data_returns_all_rows_example :
  key_is_stored "AB12CD" db_demo /\
  get_data false false "AB12CD" db_demo
  = (Val (HealthData [mkReading (Some 7) 110 98 61;
                      mkReading (Some 7) 100 97 60]), db_demo) /\
  exists sid rows,
    resolved_id "AB12CD" db_demo = Some sid /\
    get_data false false "AB12CD" db_demo = (Val (HealthData rows), db_demo) /\
    List.length rows
    = Nat.min 50 (List.length (filter (of_session sid) (health_data db_demo)))
    /\
    ((List.length (filter (of_session sid) (health_data db_demo)) <= 50)%nat ->
     Permutation rows (filter (of_session sid) (health_data db_demo))).
Proof.
  assert (K : key_is_stored "AB12CD" db_demo).
  { exists (mkSession 7 "AB12CD" "2025-01-01T10:00:00").
    split; [now left|reflexivity]. }
  split; [exact K|]. split; [reflexivity|].
  exact (get_data_returns_all_rows_up_to_50 "AB12CD" db_demo K).
Defined.

Lemma upper_hex_char_in_alphabet (d : N) :
  In (upper_char (hex_char d)) (list_ascii_of_string "0123456789ABCDEF").
Proof.
  unfold hex_char. generalize (N.to_nat d) as n. intros n.
  do 16 (destruct n as [|n]; [simpl; tauto|]).
  destruct n; simpl; tauto.
Qed.

(** X15.  Every character of a generated session key is one of
    0123456789ABCDEF. *)
Theorem session_key_alphabet (u : N) (c : ascii) :
  In c (list_ascii_of_string (generate_session_key u)) ->
  In c (list_ascii_of_string "0123456789ABCDEF").
Proof.
  rewrite key_digits, list_ascii_of_string_of_list_ascii.
  intros H. apply in_map_iff in H as [i [<- _]].
  apply upper_hex_char_in_alphabet.
Qed.

Lemma session_key_alphabet_example :
  In "F"%char (list_ascii_of_string (generate_session_key uuid_a)) /\
  In "F"%char (list_ascii_of_string "0123456789ABCDEF").
Proof.
  assert (H : In "F"%char (list_ascii_of_string (generate_session_key uuid_a))).
  { vm_compute. tauto. }
  split; [exact H|].
  exact (session_key_alphabet uuid_a "F"%char H).
Defined.

Lemma hex_digit_top (u : N) (i : nat) :
  (i < 6)%nat ->
  hex_digit_at u i
  = hex_char (((u / 2 ^ 104) / 16 ^ N.of_nat (5 - i)) mod 16)%N.
Proof.
  intros Hi. unfold hex_digit_at. rewrite N.Div0.div_div.
  do 2 f_equal. f_equal.
  assert (E : i = 0%nat \/ i = 1%nat \/ i = 2%nat \/ i = 3%nat
              \/ i = 4%nat \/ i = 5%nat) by lia.
  destruct E as [->|[->|[->|[->|[->| ->]]]]]; reflexivity.
Qed.

(** X16.  The key depends on the top 24 bits of the UUID only: UUIDs that
    agree above bit 104 get the same key. *)
Theorem session_key_depends_on_top_24_bits (u1 u2 : N) :
  (u1 / 2 ^ 104 = u2 / 2 ^ 104)%N ->
  generate_session_key u1 = generate_session_key u2.
Proof.
  intros H. rewrite !key_digits. f_equal.
  apply map_ext_in. intros i Hi. apply in_seq in Hi.
  rewrite !hex_digit_top by lia. now rewrite H.
Qed.

Lemma session_key_depends_on_top_24_bits_example :
  uuid_a <> uuid_b /\
  generate_session_key uuid_a = generate_session_key uuid_b.
Proof.
  split; [discriminate|].
  apply (session_key_depends_on_top_24_bits uuid_a uuid_b).
  vm_compute. reflexivity.
Defined.

End BackendFacts.
